(** * Resumable ingestion engine: a shallow embedding and its properties

    The development follows the TypeScript sources of the ingestion package:

    - [Js]          the few ECMAScript built-ins the code relies on
                    (truthiness, [parseInt], [Date]);
    - [Transformer] src/ingestion/transformer.ts;
    - [Fetcher]     src/api/fetcher.ts (the retry / rate-limit loop);
    - [Store]       the three PostgreSQL tables and the statements run on them;
    - [Engine]      src/db/writer.ts, src/ingestion/cursor.ts and
                    src/ingestion/pipeline.ts over one mutable environment.

    Numbers are integers ([Z]); a JavaScript number that may be [NaN] is a
    [jsnum].  Asynchronous calls are sequentialised: a call has its effects
    when it is started and [await] observes how it ended.  The environment is
    explicit: the answers of the HTTP client are a script read in order, the
    database fails at the calls a fault plan names, and the stop flag turns
    true after a number of reads.  Progress reporting and the pacing sleep
    change nothing that is modelled and are left out. *)

From Stdlib Require Import ZArith List String Ascii Bool Lia.
Import ListNotations.
Open Scope string_scope.
Open Scope list_scope.
Open Scope Z_scope.

(* ================================================================== *)
(** * ECMAScript built-ins *)
(* ================================================================== *)

Module Js.

(** A number that may be [NaN] (the result of [parseInt]). *)
Inductive jsnum : Type :=
| JNaN
| JInt (z : Z).

Definition jsAdd (a : jsnum) (k : Z) : jsnum :=
  match a with JNaN => JNaN | JInt z => JInt (z + k) end.

Definition jsMul (a : jsnum) (k : Z) : jsnum :=
  match a with JNaN => JNaN | JInt z => JInt (z * k) end.

(** [ToBoolean] on a string: only the empty string is falsy. *)
Definition truthyStr (s : string) : bool :=
  match s with EmptyString => false | String _ _ => true end.

(** [ToBoolean] on an optional string ([undefined] / [null] are falsy). *)
Definition truthyOpt (o : option string) : bool :=
  match o with None => false | Some s => truthyStr s end.

(** [ToBoolean] on an (integral) number: only zero is falsy. *)
Definition truthyNum (z : Z) : bool := negb (z =? 0).

Definition digitVal (c : ascii) : option Z :=
  let n := Z.of_nat (nat_of_ascii c) in
  if (48 <=? n) && (n <=? 57) then Some (n - 48) else None.

(** White space skipped by [parseInt] (the code units below 256). *)
Definition isStrWhiteSpace (c : ascii) : bool :=
  let n := nat_of_ascii c in
  orb (Nat.leb 9 n && Nat.leb n 13)%bool (orb (Nat.eqb n 32) (Nat.eqb n 160)).

Fixpoint skipWhite (s : string) : string :=
  match s with
  | String c r => if isStrWhiteSpace c then skipWhite r else s
  | EmptyString => s
  end.

(** Longest prefix of decimal digits, as a value; [None] when there is none. *)
Fixpoint leadingDigits (s : string) (acc : option Z) : option Z :=
  match s with
  | String c r =>
      match digitVal c with
      | Some d => leadingDigits r (Some (match acc with
                                         | Some a => 10 * a + d
                                         | None => d
                                         end))
      | None => acc
      end
  | EmptyString => acc
  end.

(** [parseInt(s, 10)]. *)
Definition parseInt10 (s : string) : jsnum :=
  let t := skipWhite s in
  let '(neg, body) :=
    match t with
    | String c r =>
        if Ascii.eqb c "-"%char then (true, r)
        else if Ascii.eqb c "+"%char then (false, r)
        else (false, t)
    | EmptyString => (false, t)
    end in
  match leadingDigits body None with
  | Some v => JInt (if neg then - v else v)
  | None => JNaN
  end.

(** ** Dates

    A valid [Date] is its time value: milliseconds since the epoch, of
    magnitude at most 8.64e15 ([TimeClip]). *)

Definition Date := Z.

Definition maxTimeValue : Z := 8640000000000000.

(** [new Date(n)] for an integral number: [None] is the invalid date. *)
Definition newDate (n : Z) : option Date :=
  if Z.abs n <=? maxTimeValue then Some n else None.

Definition isLeap (y : Z) : bool :=
  ((y mod 4 =? 0) && negb (y mod 100 =? 0)) || (y mod 400 =? 0).

Definition daysInMonth (y m : Z) : Z :=
  if m =? 2 then (if isLeap y then 29 else 28)
  else if (m =? 4) || (m =? 6) || (m =? 9) || (m =? 11) then 30
  else 31.

(** Day number of a proleptic Gregorian date, from 1970-01-01. *)
Definition daysFromCivil (y m d : Z) : Z :=
  let y' := if m <=? 2 then y - 1 else y in
  let era := y' / 400 in
  let yoe := y' - era * 400 in
  let mp := (m + 9) mod 12 in
  let doy := (153 * mp + 2) / 5 + d - 1 in
  let doe := yoe * 365 + yoe / 4 - yoe / 100 + doy in
  era * 146097 + doe - 719468.

(** The inverse: year, month, day of a day number. *)
Definition civilFromDays (z : Z) : Z * Z * Z :=
  let z' := z + 719468 in
  let era := z' / 146097 in
  let doe := z' - era * 146097 in
  let yoe := (doe - doe / 1460 + doe / 36524 - doe / 146096) / 365 in
  let doy := doe - (365 * yoe + yoe / 4 - yoe / 100) in
  let mp := (5 * doy + 2) / 153 in
  let d := doy - (153 * mp + 2) / 5 + 1 in
  let m := if mp <? 10 then mp + 3 else mp - 9 in
  let y := yoe + era * 400 in
  (if m <=? 2 then y + 1 else y, m, d).

Definition msPerDay : Z := 86400000.

Definition num2 (a b : ascii) : option Z :=
  match digitVal a, digitVal b with
  | Some x, Some y => Some (10 * x + y)
  | _, _ => None
  end.

Definition isChar (c : ascii) (lit : ascii) : bool := Ascii.eqb c lit.

(** The time value of a string in the interchange format
    [YYYY-MM-DDTHH:mm:ss.sssZ] whose fields are all in range. *)
Definition parseIsoUtc (s : string) : option Date :=
  match list_ascii_of_string s with
  | [y1; y2; y3; y4; c1; m1; m2; c2; d1; d2; c3; h1; h2; c4; i1; i2; c5;
     s1; s2; c6; f1; f2; f3; c7] =>
      if isChar c1 "-" && isChar c2 "-" && isChar c3 "T" && isChar c4 ":"
         && isChar c5 ":" && isChar c6 "." && isChar c7 "Z"
      then
        match num2 y1 y2, num2 y3 y4, num2 m1 m2, num2 d1 d2,
              num2 h1 h2, num2 i1 i2, num2 s1 s2, digitVal f1, num2 f2 f3 with
        | Some ya, Some yb, Some mo, Some dd, Some hh, Some mi, Some ss,
          Some fa, Some fb =>
            let y := 100 * ya + yb in
            if (1 <=? mo) && (mo <=? 12) && (1 <=? dd)
               && (dd <=? daysInMonth y mo)
               && (hh <=? 23) && (mi <=? 59) && (ss <=? 59)
            then Some (daysFromCivil y mo dd * msPerDay
                       + hh * 3600000 + mi * 60000 + ss * 1000
                       + 100 * fa + fb)
            else None
        | _, _, _, _, _, _, _, _, _ => None
        end
      else None
  | _ => None
  end.

Definition digitChar (d : Z) : ascii := ascii_of_nat (Z.to_nat (48 + d mod 10)).

(** [n] written with [w] decimal digits, zero padded. *)
Fixpoint padDigits (w : nat) (n : Z) (tail : string) : string :=
  match w with
  | O => tail
  | S w' => padDigits w' (n / 10) (String (digitChar n) tail)
  end.

(** [Date.prototype.toISOString] of a valid date. *)
Definition toISOString (t : Date) : string :=
  let day := t / msPerDay in
  let ms := t mod msPerDay in
  let '(y, m, d) := civilFromDays day in
  let year :=
    if (0 <=? y) && (y <=? 9999) then padDigits 4 y EmptyString
    else String (if y <? 0 then "-"%char else "+"%char)
                (padDigits 6 (Z.abs y) EmptyString) in
  (year ++ "-" ++ padDigits 2 m
    ("-" ++ padDigits 2 d
       ("T" ++ padDigits 2 (ms / 3600000)
          (":" ++ padDigits 2 (ms / 60000 mod 60)
             (":" ++ padDigits 2 (ms / 1000 mod 60)
                ("." ++ padDigits 3 (ms mod 1000) "Z"))))))%string.

Section DateParse.

  (** What the host's [Date.parse] answers on a string that is not in the
      interchange format above is implementation-defined; it is kept abstract
      ([None] is [NaN]). *)
Variable hostParse : string -> option Date.

  (** [Date.parse]. *)
Definition dateParse (s : string) : option Date :=
    match parseIsoUtc s with
    | Some t => Some t
    | None => hostParse s
    end.

End DateParse.

End Js.

(* ================================================================== *)
(** * src/ingestion/transformer.ts *)
(* ================================================================== *)

Module Transformer.
Import Js.

(** The [timestamp] field of a raw event: [string | number], possibly
    absent, possibly JSON [null]. *)
Inductive TsValue : Type :=
| TsUndefined
| TsNull
| TsNum (n : Z)
| TsStr (s : string).

(** [RawEvent]: the three fields the code reads, and the remaining keys. *)
Record RawEvent : Type := mkRaw {
  raw_id : option string;
  raw_type : option string;
  raw_timestamp : TsValue;
  raw_rest : list (string * string)
}.

Record TransformedRow : Type := mkRow {
  id : string;
  event_type : option string;
  timestamp : option Date;
  data : RawEvent
}.

(** The errors the transformer throws. *)
Inductive TransformError : Type :=
| InvalidTimestampMissing
| InvalidTimestampString (s : string)
| InvalidTimestampFormat
| InvalidTimestamp (n : Z)
| MissingId.

Definition truthyTs (v : TsValue) : bool :=
  match v with
  | TsUndefined | TsNull => false
  | TsNum n => truthyNum n
  | TsStr s => truthyStr s
  end.

Section WithHost.

Variable hostParse : string -> option Date.

Definition normalizeTimestamp (input : TsValue) : Date + TransformError :=
    match input with
    | TsUndefined | TsNull => inr InvalidTimestampMissing
    | TsNum n =>
        match newDate n with
        | Some d => inl d
        | None => inr (InvalidTimestamp n)
        end
    | TsStr s =>
        match dateParse hostParse s with
        | None => inr (InvalidTimestampString s)
        | Some parsed =>
            match newDate parsed with
            | Some d => inl d
            | None => inr (InvalidTimestamp parsed)
            end
        end
    end.

Definition transformEvent (raw : RawEvent) : TransformedRow + TransformError :=
    if negb (truthyOpt (raw_id raw)) then inr MissingId
    else
      let ts :=
        if truthyTs (raw_timestamp raw)
        then match normalizeTimestamp (raw_timestamp raw) with
             | inl d => inl (Some d)
             | inr e => inr e
             end
        else inl None in
      match ts with
      | inr e => inr e
      | inl t =>
          inl {| id := match raw_id raw with Some s => s | None => EmptyString end;
                 event_type := if truthyOpt (raw_type raw) then raw_type raw
                               else None;
                 timestamp := t;
                 data := raw |}
      end.

  (** [rawEvents.map(transformEvent)]: the first throw aborts the map. *)
Fixpoint transformEvents (rawEvents : list RawEvent)
    : list TransformedRow + TransformError :=
    match rawEvents with
    | [] => inl []
    | raw :: rest =>
        match transformEvent raw with
        | inr e => inr e
        | inl row =>
            match transformEvents rest with
            | inr e => inr e
            | inl rows => inl (row :: rows)
            end
        end
    end.

End WithHost.

End Transformer.

(* ================================================================== *)
(** * src/api/fetcher.ts *)
(* ================================================================== *)

Module Fetcher.
Import Js.

Record FetchPageResult : Type := mkPage {
  data : list Transformer.RawEvent;
  hasMore : bool;
  nextCursor : string
}.

(** The parts of an axios response the code inspects: the status, the
    [code] member of the body, and the [retry-after] header. *)
Record AxiosResponse : Type := mkResponse {
  status : Z;
  bodyCode : option string;
  retryAfterHeader : option string
}.

Record AxiosError : Type := mkAxiosError {
  response : option AxiosResponse;
  code : option string
}.

(** What [client.get] rejects with: an axios error, or anything else. *)
Inductive Rejection : Type :=
| NotAxios (message : string)
| IsAxios (e : AxiosError).

(** One answer of the HTTP client. *)
Inductive HttpResult : Type :=
| Resolved (page : FetchPageResult)
| Rejected (err : Rejection).

(** The request parameters: [limit], and [cursor] when it is set. *)
Record Params : Type := mkParams {
  limit : Z;
  cursorParam : option string
}.

Inductive Warning : Type :=
| StreamTokenExpiredWarning
| CursorExpiredWarning
| RateLimitedWarning (seconds : jsnum).

(** What a call does, in order: requests, console warnings, sleeps (ms). *)
Inductive Event : Type :=
| Get (endpoint : string) (params : Params)
| Warn (w : Warning)
| Delay (ms : jsnum).

(** What [fetchPage] throws. *)
Inductive FetchError : Type :=
| StreamTokenExpired
| AuthError (st : Z)
| Rethrown (err : Rejection).

(** How a call ends: [Pending] when the client never answers a request. *)
Inductive Outcome : Type :=
| Returned (page : FetchPageResult)
| Threw (e : FetchError)
| Pending.

Record Call : Type := mkCall {
  events : list Event;
  outcome : Outcome;
  unread : list HttpResult
}.

Definition before (evs : list Event) (c : Call) : Call :=
  {| events := evs ++ events c; outcome := outcome c; unread := unread c |}.

Definition baseEndpoint : string := "/events".
Definition streamEndpoint : string := "/events/d4ta/x7k9/feed".
Definition maxRetries : Z := 3.

Definition statusIs (ae : AxiosError) (n : Z) : bool :=
  match response ae with
  | Some r => status r =? n
  | None => false
  end.

(** [responseData?.code === 'CURSOR_EXPIRED'] *)
Definition cursorExpiredCode (ae : AxiosError) : bool :=
  match response ae with
  | Some r => match bodyCode r with
              | Some c => String.eqb c "CURSOR_EXPIRED"
              | None => false
              end
  | None => false
  end.

(** [parseInt(headers['retry-after'] ?? '60', 10)] *)
Definition retryAfter (ae : AxiosError) : jsnum :=
  match response ae with
  | Some r => parseInt10 (match retryAfterHeader r with
                          | Some h => h
                          | None => "60"
                          end)
  | None => parseInt10 "60"
  end.

Definition rateLimitDelay (ae : AxiosError) : jsnum :=
  jsMul (jsAdd (retryAfter ae) 1) 1000.

Definition isNetworkError (ae : AxiosError) : bool :=
  match response ae with
  | None => true
  | Some _ => match code ae with
              | Some c => String.eqb c "ECONNABORTED"
              | None => false
              end
  end.

(** [status && status >= 500] *)
Definition isServerError (ae : AxiosError) : bool :=
  match response ae with
  | Some r => negb (status r =? 0) && (500 <=? status r)
  | None => false
  end.

(** [Math.pow(2, attempt) * 500] *)
Definition backoff (attempt : Z) : jsnum := JInt (2 ^ attempt * 500).

(** The [while (true)] loop of [fetchPage]; every iteration reads one answer
    of the client. *)
Fixpoint fetchLoop (endpoint : string) (params : Params)
  (cursor : option string) (attempt : Z) (script : list HttpResult) : Call :=
  match script with
  | [] => mkCall [Get endpoint params] Pending []
  | Resolved page :: rest => mkCall [Get endpoint params] (Returned page) rest
  | Rejected (NotAxios m) :: rest =>
      mkCall [Get endpoint params] (Threw (Rethrown (NotAxios m))) rest
  | Rejected (IsAxios ae) :: rest =>
      let isStreamEndpoint := String.eqb endpoint streamEndpoint in
      if statusIs ae 401 || statusIs ae 403 then
        if isStreamEndpoint
        then mkCall [Get endpoint params; Warn StreamTokenExpiredWarning]
               (Threw StreamTokenExpired) rest
        else mkCall [Get endpoint params]
               (Threw (AuthError (match response ae with
                                  | Some r => status r
                                  | None => 0
                                  end))) rest
      else if statusIs ae 400 && cursorExpiredCode ae && truthyOpt cursor then
        before [Get endpoint params; Warn CursorExpiredWarning]
          (fetchLoop endpoint (mkParams (limit params) None) None attempt rest)
      else if statusIs ae 429 then
        before [Get endpoint params;
                Warn (RateLimitedWarning (jsAdd (retryAfter ae) 1));
                Delay (rateLimitDelay ae)]
          (fetchLoop endpoint params cursor attempt rest)
      else if (isNetworkError ae || isServerError ae) && (attempt <? maxRetries)
      then
        before [Get endpoint params; Delay (backoff (attempt + 1))]
          (fetchLoop endpoint params cursor (attempt + 1) rest)
      else mkCall [Get endpoint params] (Threw (Rethrown (IsAxios ae))) rest
  end.

Definition fetchPage (hasStreamToken : bool) (limit : Z)
  (cursor : option string) (script : list HttpResult) : Call :=
  let endpoint := if hasStreamToken then streamEndpoint else baseEndpoint in
  let params := mkParams limit (if truthyOpt cursor then cursor else None) in
  fetchLoop endpoint params cursor 0 script.

(** A server-side failure (5xx) or a network failure (no response). *)
Definition transientFailure (ae : AxiosError) : bool :=
  match response ae with
  | None => true
  | Some r => 500 <=? status r
  end.

(** The answer "this cursor has expired": status 400, code CURSOR_EXPIRED. *)
Definition cursorRejected (ae : AxiosError) : bool :=
  statusIs ae 400 && cursorExpiredCode ae.

Definition reject (ae : AxiosError) : HttpResult := Rejected (IsAxios ae).

(** What one absorbed rate-limited attempt does. *)
Definition rateLimitedAttempt (endpoint : string) (params : Params)
  (ae : AxiosError) : list Event :=
  [Get endpoint params;
   Warn (RateLimitedWarning (jsAdd (retryAfter ae) 1));
   Delay (rateLimitDelay ae)].

Definition attempts (c : Call) : nat :=
  List.length (filter (fun e => match e with Get _ _ => true | _ => false end)
            (events c)).

Definition delays (c : Call) : list jsnum :=
  flat_map (fun e => match e with Delay ms => [ms] | _ => [] end) (events c).

End Fetcher.

(* ================================================================== *)
(** * The PostgreSQL tables (src/db/migrations.ts) *)
(* ================================================================== *)

Module Store.
Import Transformer.

(** A row of [cursor_state]; rows are kept oldest first, so the last one is
    the one with the greatest [updated_at]. *)
Record CursorRow : Type := mkCursorRow {
  cursor_value : string;
  events_ingested : Z
}.

Record Tables : Type := mkTables {
  staging_events : list TransformedRow;
  ingested_events : list TransformedRow;
  cursor_state : list CursorRow
}.

Definition ids (rows : list TransformedRow) : list string := map id rows.

Definition hasId (i : string) (rows : list TransformedRow) : bool :=
  existsb (fun r => String.eqb (id r) i) rows.

(** One row offered to [ingested_events] under [ON CONFLICT (id) DO NOTHING]. *)
Definition insertOrSkip (dest : list TransformedRow) (r : TransformedRow)
  : list TransformedRow :=
  if hasId (id r) dest then dest else dest ++ [r].

Definition mergeRows (dest src : list TransformedRow) : list TransformedRow :=
  fold_left insertOrSkip src dest.

(** [INSERT INTO staging_events ... SELECT * FROM UNNEST(...)] *)
Definition stagingQuery (batch : list TransformedRow) (t : Tables) : Tables :=
  mkTables (staging_events t ++ batch) (ingested_events t) (cursor_state t).

(** [INSERT INTO ingested_events ... SELECT ... FROM staging_events
     ON CONFLICT (id) DO NOTHING] *)
Definition upsertQuery (t : Tables) : Tables :=
  mkTables (staging_events t)
    (mergeRows (ingested_events t) (staging_events t)) (cursor_state t).

(** [TRUNCATE staging_events] *)
Definition truncateStaging (t : Tables) : Tables :=
  mkTables [] (ingested_events t) (cursor_state t).

(** [INSERT INTO cursor_state (cursor_value, events_ingested) VALUES ($1, $2)] *)
Definition insertCursor (c : string) (n : Z) (t : Tables) : Tables :=
  mkTables (staging_events t) (ingested_events t)
    (cursor_state t ++ [mkCursorRow c n]).

(** [SELECT * FROM cursor_state ORDER BY updated_at DESC LIMIT 1] *)
Definition latestCursor (t : Tables) : option CursorRow :=
  last (map Some (cursor_state t)) None.

End Store.

(* ================================================================== *)
(** * src/db/writer.ts, src/ingestion/cursor.ts, src/ingestion/pipeline.ts *)
(* ================================================================== *)

Module Engine.
Import Js Transformer Store.

(** ** CursorState *)

Record CursorState : Type := mkCursorState {
  cursor : option string;
  eventsIngested : Z
}.

Definition create : CursorState := mkCursorState None 0.

(** [fromRow]: the driver hands [events_ingested] (a BIGINT) over as its
    decimal string, which [parseInt] reads back. *)
Definition fromRow (row : CursorRow) : CursorState :=
  mkCursorState (Some (cursor_value row)) (events_ingested row).

Definition update (st : CursorState) (nextCursor : string) (countInBatch : Z)
  : CursorState :=
  mkCursorState (Some nextCursor) (eventsIngested st + countInBatch).

(** ** The environment the engine runs in *)

Inductive Exn : Type :=
| FetchFailed (e : Fetcher.FetchError)
| TransformFailed (e : TransformError)
| DbFailed (call : nat).

(** How a computation ends: [Hang] when an awaited promise never settles. *)
Inductive Res (A : Type) : Type :=
| Val (a : A)
| Throw (e : Exn)
| Hang.
Arguments Val {A} a.
Arguments Throw {A} e.
Arguments Hang {A}.

Record Env : Type := mkEnv {
  tables : Tables;                     (* committed database state *)
  session : option Tables;             (* the open transaction, if any *)
  dbCalls : nat;                       (* database calls issued so far *)
  buffer : list TransformedRow;        (* DBWriter.buffer *)
  state : CursorState;                 (* the pipeline's [state] object *)
  stopIn : option nat;                 (* reads of [shouldStop] still false *)
  http : list Fetcher.HttpResult;      (* answers the HTTP client will give *)
  trace : list Fetcher.Event           (* what the fetcher has done so far *)
}.

Definition setTables (t : Tables) (e : Env) : Env :=
  mkEnv t (session e) (dbCalls e) (buffer e) (state e) (stopIn e) (http e)
    (trace e).
Definition setSession (s : option Tables) (e : Env) : Env :=
  mkEnv (tables e) s (dbCalls e) (buffer e) (state e) (stopIn e) (http e)
    (trace e).
Definition tick (e : Env) : Env :=
  mkEnv (tables e) (session e) (S (dbCalls e)) (buffer e) (state e) (stopIn e)
    (http e) (trace e).
Definition setBuffer (b : list TransformedRow) (e : Env) : Env :=
  mkEnv (tables e) (session e) (dbCalls e) b (state e) (stopIn e) (http e)
    (trace e).
Definition setState (st : CursorState) (e : Env) : Env :=
  mkEnv (tables e) (session e) (dbCalls e) (buffer e) st (stopIn e) (http e)
    (trace e).
Definition setStopIn (k : option nat) (e : Env) : Env :=
  mkEnv (tables e) (session e) (dbCalls e) (buffer e) (state e) k (http e)
    (trace e).
Definition setHttp (h : list Fetcher.HttpResult) (evs : list Fetcher.Event)
  (e : Env) : Env :=
  mkEnv (tables e) (session e) (dbCalls e) (buffer e) (state e) (stopIn e) h
    (trace e ++ evs).

(** ** The monad of engine code *)

Definition M (A : Type) : Type := Env -> Res A * Env.

Definition ret {A} (a : A) : M A := fun e => (Val a, e).
Definition throw {A} (x : Exn) : M A := fun e => (Throw x, e).
Definition hang {A} : M A := fun e => (Hang, e).

Definition bind {A B} (m : M A) (k : A -> M B) : M B :=
  fun e =>
    match m e with
    | (Val a, e') => k a e'
    | (Throw x, e') => (Throw x, e')
    | (Hang, e') => (Hang, e')
    end.

(** [try { m } catch (err) { h err }] *)
Definition tryCatch {A} (m : M A) (h : Exn -> M A) : M A :=
  fun e =>
    match m e with
    | (Throw x, e') => h x e'
    | other => other
    end.

Definition get : M Env := fun e => (Val e, e).
Definition modify (f : Env -> Env) : M unit := fun e => (Val tt, f e).

Declare Scope engine_scope.
Delimit Scope engine_scope with engine.
Notation "'let*' x ':=' m 'in' k" := (bind m (fun x => k))
  (at level 10, x name, m at level 100, k at level 200) : engine_scope.
Notation "m ';;' k" := (bind m (fun _ => k))
  (at level 100, right associativity) : engine_scope.
Open Scope engine_scope.

Section Run.

  (** The [n]-th database call (connect or query) fails iff [faulty n]. *)
Variable faulty : nat -> bool.
Variable hostParse : string -> option Date.
  (** [fetcher.isStreamMode] and the writer's [batchSize]. *)
Variable isStreamMode : bool.
Variable batchSize : Z.

  (** One database call: counted, and failing when the plan says so. *)
Definition dbCall (effect : Env -> Env) : M unit :=
    fun e =>
      if faulty (dbCalls e) then (Throw (DbFailed (dbCalls e)), tick e)
      else (Val tt, effect (tick e)).

  (** [pool.connect()] *)
Definition connect : M unit := dbCall (fun e => e).

  (** [client.query('BEGIN')] *)
Definition begin : M unit := dbCall (fun e => setSession (Some (tables e)) e).

  (** A statement on the client: inside the open transaction. *)
Definition clientQuery (stmt : Tables -> Tables) : M unit :=
    dbCall (fun e =>
              match session e with
              | Some work => setSession (Some (stmt work)) e
              | None => setTables (stmt (tables e)) e
              end).

  (** [client.query('COMMIT')] *)
Definition commit : M unit :=
    dbCall (fun e =>
              match session e with
              | Some work => setSession None (setTables work e)
              | None => e
              end).

  (** [client.query('ROLLBACK')]: the transaction is gone either way. *)
Definition rollback : M unit :=
    modify (setSession None) ;; dbCall (fun e => e).

  (** [pool.query(...)]: a statement of its own, committed at once. *)
Definition poolQuery (stmt : Tables -> Tables) : M unit :=
    dbCall (fun e => setTables (stmt (tables e)) e).

  (** *** DBWriter *)

Definition flush : M unit :=
    let* e := get in
    match buffer e with
    | [] => ret tt
    | _ :: _ =>
        let batch := buffer e in
        modify (setBuffer []) ;;
        connect ;;
        tryCatch
          (begin ;;
           clientQuery (stagingQuery batch) ;;
           clientQuery upsertQuery ;;
           clientQuery truncateStaging ;;
           commit)
          (fun err => rollback ;; throw err)
    end.

Fixpoint add (rows : list TransformedRow) : M unit :=
    match rows with
    | [] => ret tt
    | row :: rest =>
        modify (fun e => setBuffer (buffer e ++ [row]) e) ;;
        (let* e := get in
         if Z.of_nat (List.length (buffer e)) >=? batchSize
         then flush else ret tt) ;;
        add rest
    end.

Definition close : M unit := flush.

  (** [await writer.add(rows); await writer.flush()] *)
Definition addAndFlush (rows : list TransformedRow) : M unit :=
    add rows ;; flush.

  (** *** cursor.ts *)

Definition saveCursor : M unit :=
    let* e := get in
    match cursor (state e) with
    | None => ret tt
    | Some c => poolQuery (insertCursor c (eventsIngested (state e)))
    end.

Definition loadCursor : M (option CursorState) :=
    poolQuery (fun t => t) ;;
    let* e := get in
    ret (option_map fromRow (latestCursor (tables e))).

  (** *** Pipeline *)

  (** One read of [this.shouldStop]. *)
Definition shouldStop : M bool :=
    fun e =>
      match stopIn e with
      | None => (Val false, e)
      | Some O => (Val true, e)
      | Some (S k) => (Val false, setStopIn (Some k) e)
      end.

  (** [hasMore && !this.shouldStop] *)
Definition goOn (hasMore : bool) : M bool :=
    if hasMore then (let* stop := shouldStop in ret (negb stop))
    else ret false.

  (** [this.fetcher.fetchPage(limit, cursor)], started: the promise it
      returns is its outcome. *)
Definition startFetch (limit : Z) (c : option string) : M Fetcher.Outcome :=
    fun e =>
      let call := Fetcher.fetchPage isStreamMode limit c (http e) in
      (Val (Fetcher.outcome call),
       setHttp (Fetcher.unread call) (Fetcher.events call) e).

  (** [await promise] *)
Definition await (p : Fetcher.Outcome) : M Fetcher.FetchPageResult :=
    match p with
    | Fetcher.Returned page => ret page
    | Fetcher.Threw err => throw (FetchFailed err)
    | Fetcher.Pending => hang
    end.

Definition transformAll (raws : list RawEvent) : M (list TransformedRow) :=
    match transformEvents hostParse raws with
    | inl rows => ret rows
    | inr err => throw (TransformFailed err)
    end.

  (** The body both loops share: [if (page.data.length > 0) { ... }]. *)
Definition processPage (limit : Z) (page : Fetcher.FetchPageResult) : M unit :=
    match Fetcher.data page with
    | [] => ret tt
    | _ :: _ =>
        let* rows := transformAll (Fetcher.data page) in
        add rows ;;
        modify (fun e =>
                  setState (update (state e) (Fetcher.nextCursor page)
                              (Z.of_nat (List.length rows))) e) ;;
        let* e := get in
        if Z.rem (eventsIngested (state e)) 50000 <? limit
        then saveCursor else ret tt
    end.

  (** Standard mode, lines 76-103; the pacing sleep only reads the flag. *)
Fixpoint standardLoop (fuel : nat) (limit : Z) (hasMore : bool) : M unit :=
    match fuel with
    | O => hang
    | S fuel' =>
        let* continue := goOn hasMore in
        if continue then
          let* e := get in
          let* promise := startFetch limit (cursor (state e)) in
          let* page := await promise in
          let hasMore := Fetcher.hasMore page in
          processPage limit page ;;
          goOn hasMore ;;
          standardLoop fuel' limit hasMore
        else ret tt
    end.

  (** Stream mode, lines 47-71: the next fetch is started before the
      current page is processed. *)
Fixpoint overlapLoop (fuel : nat) (limit : Z) (hasMore : bool)
    (pendingFetch : Fetcher.Outcome) : M unit :=
    match fuel with
    | O => hang
    | S fuel' =>
        let* continue := goOn hasMore in
        if continue then
          let* page := await pendingFetch in
          let hasMore := Fetcher.hasMore page in
          let* next := goOn hasMore in
          let* pendingFetch :=
            (if next then startFetch limit (Some (Fetcher.nextCursor page))
             else ret pendingFetch) in
          processPage limit page ;;
          overlapLoop fuel' limit hasMore pendingFetch
        else ret tt
    end.

(** [run].  Every turn of either loop reads at least one answer of the
    client or waits forever for it, so one more turn than there are answers
    is all the fuel a run can use. *)
Definition run : M unit :=
    let* loaded := loadCursor in
    modify (setState (match loaded with Some st => st | None => create end)) ;;
    let limit := if isStreamMode then 40000 else 5000 in
    let* e := get in
    let fuel := S (List.length (http e)) in
    tryCatch
      (if isStreamMode then
         let* pendingFetch := startFetch limit (cursor (state e)) in
         overlapLoop fuel limit true pendingFetch
       else standardLoop fuel limit true)
      (fun err => close ;; saveCursor ;; throw err) ;;
    close ;;
    saveCursor.

End Run.

(** A fresh process over a database and a source. *)
Definition boot (t : Tables) (stop : option nat)
  (answers : list Fetcher.HttpResult) : Env :=
  mkEnv t None O [] create stop answers [].

Definition emptyDb : Tables := mkTables [] [] [].

(** While the pipeline's state has no cursor, the checkpoint table, and the
    copy of it an open transaction works on, are still [cs0]. *)
Definition untouched (cs0 : list CursorRow) (e : Env) : Prop :=
  cursor (state e) = None ->
  cursor_state (tables e) = cs0 /\
  (forall work, session e = Some work -> cursor_state work = cs0).

(** [m] keeps [I], however it ends. *)
Definition Preserves {A : Type} (I : Env -> Prop) (m : M A) : Prop :=
  forall e, I e -> I (snd (m e)).

End Engine.

(* ================================================================== *)
(** * Concrete inputs used by the examples below *)
(* ================================================================== *)

Module Fixtures.
Import Js Transformer Store Engine.

(** A host whose [Date.parse] knows the interchange format only. *)
Definition noHostParse (_ : string) : option Date := None.

(** A database that never fails, and one whose [k]-th call fails. *)
Definition healthy (_ : nat) : bool := false.
Definition failsAt (k : nat) (n : nat) : bool := Nat.eqb n k.

Definition isoSample : string := "2026-01-27T19:19:13.629Z".
Definition msSample : Z := 1769541612369.
Definition secondsSample : Z := 1769541612.

(** Two instants are the same within [tol] milliseconds. *)
Definition within (tol : Z) (a b : Date) : Prop := Z.abs (a - b) <= tol.

Definition click (i : string) : RawEvent :=
  mkRaw (Some i) (Some "click") (TsStr "2026-01-01T00:00:00.000Z") [].

Definition epochEvent : RawEvent :=
  mkRaw (Some "evt-0") (Some "click") (TsNum 0) [].

Definition threeRecords : Fetcher.FetchPageResult :=
  Fetcher.mkPage [click "1"; click "2"; click "3"] false "cur-final".

(** Three rows, two of which carry the same identifier. *)
Definition sampleRows : list TransformedRow :=
  [mkRow "a" (Some "click") (Some 1767225600000) (click "a");
   mkRow "b" None None (mkRaw (Some "b") None TsUndefined []);
   mkRow "a" (Some "view") None (mkRaw (Some "a") (Some "view") TsUndefined [])].

(** A writer holding [sampleRows], over an empty database. *)
Definition loadedWriter : Env := setBuffer sampleRows (boot emptyDb None []).

Definition finalCheckpoint : CursorRow := mkCursorRow "cur-final" 3.

Definition internalError : Fetcher.AxiosError :=
  Fetcher.mkAxiosError (Some (Fetcher.mkResponse 500 None None)) None.

Definition tooManyRequests (hint : string) : Fetcher.AxiosError :=
  Fetcher.mkAxiosError (Some (Fetcher.mkResponse 429 None (Some hint))) None.

(** A source that is down: every attempt of the first fetch fails. *)
Definition sourceDown : list Fetcher.HttpResult :=
  [Fetcher.reject internalError; Fetcher.reject internalError;
   Fetcher.reject internalError; Fetcher.reject internalError].

Definition cursorExpired : Fetcher.AxiosError :=
  Fetcher.mkAxiosError
    (Some (Fetcher.mkResponse 400 (Some "CURSOR_EXPIRED") None)) None.

End Fixtures.

From Stdlib Require Import Sorted.

(* ================================================================== *)
(** * src/ingestion/cursor.ts: rows as the driver delivers them *)
(* ================================================================== *)

Module Cursor.
Import Js.

(** [events_ingested: string | number] *)
Inductive Count : Type :=
| CountString (s : string)
| CountNumber (n : jsnum).

(** The [CursorRow] interface, without the columns the code never reads. *)
Record CursorRow : Type := mkCursorRow {
  cursor_value : string;
  events_ingested : Count
}.

(** [CursorState.fromRow] *)
Definition fromRow (row : CursorRow) : Engine.CursorState :=
  let events :=
    match events_ingested row with
    | CountString s => parseInt10 s
    | CountNumber n => n
    end in
  Engine.mkCursorState (Some (cursor_value row))
    (match events with JNaN => 0 | JInt z => z end).

Inductive SerializeError : Type :=
| CursorIsNull.

(** [CursorState.toRow] *)
Definition toRow (st : Engine.CursorState) : CursorRow + SerializeError :=
  match Engine.cursor st with
  | None => inr CursorIsNull
  | Some c => inl (mkCursorRow c (CountNumber (JInt (Engine.eventsIngested st))))
  end.




End Cursor.

(* ================================================================== *)
(** * src/api/fetcher.ts, the earlier loop (retries shared with 429) *)
(* ================================================================== *)

Module Fetcher0.
Import Js Fetcher.

Inductive FetchError0 : Type :=
| AuthError0 (st : Z)
| Rethrown0 (err : Rejection)
| Unreachable.

Inductive Outcome0 : Type :=
| Returned0 (page : FetchPageResult)
| Threw0 (e : FetchError0)
| Pending0.

Record Call0 : Type := mkCall0 {
  events0 : list Event;
  outcome0 : Outcome0;
  unread0 : list HttpResult
}.

Definition before0 (evs : list Event) (c : Call0) : Call0 :=
  mkCall0 (evs ++ events0 c) (outcome0 c) (unread0 c).

(** [axiosError.response?.headers['retry-after']], when it is truthy. *)
Definition retryAfterGiven (ae : AxiosError) : option string :=
  match response ae with
  | Some r => match retryAfterHeader r with
              | Some h => if truthyStr h then Some h else None
              | None => None
              end
  | None => None
  end.

(** The sleep before a retry: the backoff, unless a rate-limited answer
    carries a retry-after header that parses. *)
Definition retryDelay (ae : AxiosError) (attempt : Z) : jsnum :=
  if statusIs ae 429 then
    match retryAfterGiven ae with
    | Some h => match parseInt10 h with
                | JInt n => JInt (n * 1000)
                | JNaN => backoff attempt
                end
    | None => backoff attempt
    end
  else backoff attempt.

(** The [while (attempt <= maxRetries)] loop. *)
Fixpoint fetchLoop0 (endpoint : string) (params : Params) (attempt : Z)
  (script : list HttpResult) : Call0 :=
  if attempt <=? maxRetries then
    match script with
    | [] => mkCall0 [Get endpoint params] Pending0 []
    | Resolved page :: rest =>
        mkCall0 [Get endpoint params] (Returned0 page) rest
    | Rejected (NotAxios m) :: rest =>
        mkCall0 [Get endpoint params] (Threw0 (Rethrown0 (NotAxios m))) rest
    | Rejected (IsAxios ae) :: rest =>
        if statusIs ae 401 || statusIs ae 403 then
          mkCall0 [Get endpoint params]
            (Threw0 (AuthError0 (match response ae with
                                 | Some r => status r
                                 | None => 0
                                 end))) rest
        else if (isNetworkError ae || isServerError ae || statusIs ae 429)
                && (attempt <? maxRetries)
        then
          before0 [Get endpoint params; Delay (retryDelay ae (attempt + 1))]
            (fetchLoop0 endpoint params (attempt + 1) rest)
        else mkCall0 [Get endpoint params]
               (Threw0 (Rethrown0 (IsAxios ae))) rest
    end
  else mkCall0 [] (Threw0 Unreachable) script.

Definition fetchPage0 (hasStreamToken : bool) (limit : Z)
  (cursor : option string) (script : list HttpResult) : Call0 :=
  let endpoint := if hasStreamToken then streamEndpoint else baseEndpoint in
  let params := mkParams limit (if truthyOpt cursor then cursor else None) in
  fetchLoop0 endpoint params 0 script.

Definition attempts0 (c : Call0) : nat :=
  List.length (filter (fun e => match e with Get _ _ => true | _ => false end)
                 (events0 c)).

End Fetcher0.

(* ================================================================== *)
(** * Predicates used to state what the fetcher and the run keep *)
(* ================================================================== *)

Module Watch.
Import Js Transformer Store Engine.

Definition isGet (e : Fetcher.Event) : bool :=
  match e with Fetcher.Get _ _ => true | _ => false end.

Definition isRateLimitWarning (e : Fetcher.Event) : bool :=
  match e with Fetcher.Warn (Fetcher.RateLimitedWarning _) => true | _ => false end.

Definition isCursorExpiredWarning (e : Fetcher.Event) : bool :=
  match e with Fetcher.Warn Fetcher.CursorExpiredWarning => true | _ => false end.

Definition count (p : Fetcher.Event -> bool) (evs : list Fetcher.Event) : nat :=
  List.length (filter p evs).

Definition isRateLimited (r : Fetcher.HttpResult) : bool :=
  match r with
  | Fetcher.Rejected (Fetcher.IsAxios ae) => Fetcher.statusIs ae 429
  | _ => false
  end.

(** The requests a call may still make, rate-limited answers aside: what
    is left of the retries, the request at hand, and one restart if it holds
    a cursor. *)
Definition budget (c : option string) (a : Z) : Z :=
  4 - a + (if truthyOpt c then 1 else 0).

(** A request to [endpoint] for [limit] records whose cursor, if it has
    one, is [c]. *)
Definition requestOf (endpoint : string) (limit : Z) (c : option string)
  (e : Fetcher.Event) : Prop :=
  match e with
  | Fetcher.Get ep p =>
      ep = endpoint /\ Fetcher.limit p = limit /\
      (Fetcher.cursorParam p = None \/ Fetcher.cursorParam p = c)
  | _ => True
  end.

(** A request to [endpoint] for [limit] records, whatever its cursor. *)
Definition requestTo (endpoint : string) (limit : Z) (e : Fetcher.Event) : Prop :=
  match e with
  | Fetcher.Get ep p => ep = endpoint /\ Fetcher.limit p = limit
  | _ => True
  end.

(** The state a run starts from, given the tables it finds. *)
Definition resumeState (t : Tables) : CursorState :=
  match latestCursor t with
  | Some row => fromRow row
  | None => create
  end.

Definition endpointOf (isStreamMode : bool) : string :=
  if isStreamMode then Fetcher.streamEndpoint else Fetcher.baseEndpoint.

Definition limitOf (isStreamMode : bool) : Z :=
  if isStreamMode then 40000 else 5000.

(** What a run can observe of its environment between two database
    sessions: tables, buffer, state, pending answers, requests made. *)
Definition Frame : Type :=
  Tables -> list TransformedRow -> CursorState ->
  list Fetcher.HttpResult -> list Fetcher.Event -> Prop.

Definition holds (J : Frame) (e : Env) : Prop :=
  session e = None /\
  J (tables e) (buffer e) (state e) (http e) (trace e).

(** [J] survives every step of the engine. *)
Record Stable (isStreamMode : bool) (limit : Z) (J : Frame) : Prop := mkStable {
  stable_push : forall t b st h tr row,
    J t b st h tr -> J t (b ++ [row]) st h tr;
  stable_drop : forall t b st h tr,
    J t b st h tr -> J t [] st h tr;
  stable_commit : forall t b st h tr,
    J t b st h tr ->
    J (truncateStaging (upsertQuery (stagingQuery b t))) [] st h tr;
  stable_save : forall t b st h tr c,
    J t b st h tr -> cursor st = Some c ->
    J (insertCursor c (eventsIngested st) t) b st h tr;
  stable_update : forall t b st h tr nextCursor k,
    J t b st h tr -> J t b (update st nextCursor (Z.of_nat k)) h tr;
  stable_fetch : forall t b st h tr c,
    J t b st h tr ->
    J t b st (Fetcher.unread (Fetcher.fetchPage isStreamMode limit c h))
      (tr ++ Fetcher.events (Fetcher.fetchPage isStreamMode limit c h))
}.

(** The destination respects its key and the staging table is empty. *)
Definition keyed : Frame :=
  fun t _ _ _ _ =>
    staging_events t = [] /\ NoDup (ids (ingested_events t)).

(** Nothing that was in the destination or in the checkpoint table has been
    removed or changed: both have only grown at the end. *)
Definition grownFrom (t0 : Tables) : Frame :=
  fun t _ _ _ _ =>
    (exists more, ingested_events t = ingested_events t0 ++ more) /\
    (exists more, cursor_state t = cursor_state t0 ++ more).

(** The checkpoints written since [t0] count upwards from [n0] to the
    count of the state. *)
Definition countsUp (t0 : Tables) (n0 : Z) : Frame :=
  fun t _ st _ _ =>
    n0 <= eventsIngested st /\
    exists more,
      cursor_state t = cursor_state t0 ++ more /\
      StronglySorted Z.le (n0 :: map Store.events_ingested more) /\
      Forall (fun row => Store.events_ingested row <= eventsIngested st) more.

(** The first thing the fetcher did was [first]. *)
Definition startsWith (first : Fetcher.Event) : Frame :=
  fun _ _ _ _ tr => exists rest, tr = first :: rest.

(** Every request went to [endpoint] and asked for [limit] records. *)
Definition allTo (endpoint : string) (limit : Z) : Frame :=
  fun _ _ _ _ tr => Forall (requestTo endpoint limit) tr.




(** The request a run starts with: to the endpoint and for the limit of its
    mode, from the cursor [c] when there is one. *)
Definition firstRequest (isStreamMode : bool) (c : option string)
  : Fetcher.Event :=
  Fetcher.Get (endpointOf isStreamMode)
    (Fetcher.mkParams (limitOf isStreamMode)
       (if truthyOpt c then c else None)).


(** Every page announces a next one, except the last. *)
Fixpoint lastOnly (pages : list Fetcher.FetchPageResult) : Prop :=
  match pages with
  | [] => False
  | p :: rest =>
      match rest with
      | [] => Fetcher.hasMore p = false
      | _ :: _ => Fetcher.hasMore p = true /\ lastOnly rest
      end
  end.

(** The requests that walk through [pages] from the cursor [c]: each page is
    asked for with the cursor the page before it gave. *)
Fixpoint requestsFor (isStreamMode : bool) (c : option string)
  (pages : list Fetcher.FetchPageResult) : list Fetcher.Event :=
  match pages with
  | [] => []
  | p :: rest =>
      firstRequest isStreamMode c
      :: requestsFor isStreamMode (Some (Fetcher.nextCursor p)) rest
  end.

(** Each page holds records, and they transform into the rows beside it. *)
Definition transformInto (h : string -> option Date)
  (pages : list Fetcher.FetchPageResult)
  (rowss : list (list TransformedRow)) : Prop :=
  Forall2 (fun p rows => Fetcher.data p <> [] /\
                         transformEvents h (Fetcher.data p) = inl rows)
    pages rowss.

(** The cursor a walk through [pages] ends on. *)
Definition lastCursor (c : option string)
  (pages : list Fetcher.FetchPageResult) : option string :=
  last (map (fun p => Some (Fetcher.nextCursor p)) pages) c.


End Watch.

(* ================================================================== *)
(** * Further concrete inputs *)
(* ================================================================== *)

Module Samples.
Import Js Transformer Store Engine.

(** A record without an identifier. *)
Definition anonymous : RawEvent :=
  mkRaw None (Some "click") (TsNum 1769541612369) [].

Definition forbidden : Fetcher.AxiosError :=
  Fetcher.mkAxiosError (Some (Fetcher.mkResponse 403 None None)) None.

Definition notFound : Fetcher.AxiosError :=
  Fetcher.mkAxiosError (Some (Fetcher.mkResponse 404 None None)) None.

(** A page that announces a next one; its second record comes again on
    [Fixtures.threeRecords]. *)
Definition firstPage : Fetcher.FetchPageResult :=
  Fetcher.mkPage [Fixtures.click "0"; Fixtures.click "1"] true "cur-1".

(** The rows of a page whose records all transform. *)
Definition rowsOf (page : Fetcher.FetchPageResult) : list TransformedRow :=
  match transformEvents Fixtures.noHostParse (Fetcher.data page) with
  | inl rows => rows
  | inr _ => []
  end.

End Samples.

(* ================================================================== *)
(** * Properties of the transformer *)
(* ================================================================== *)

Module TransformerSpec.
Import Js Transformer Fixtures.

Lemma normalizeTimestamp_number (h : string -> option Date) (n : Z) :
  normalizeTimestamp h (TsNum n)
  = if Z.abs n <=? maxTimeValue then inl n else inr (InvalidTimestamp n).
Proof.
  unfold normalizeTimestamp, newDate.
  destruct (Z.abs n <=? maxTimeValue); reflexivity.
Qed.

(** C3, as stated, fails: a number is never read as epoch seconds.  The
    seconds sample normalizes to an instant in January 1970, far more than one
    second away from the instant of the milliseconds sample. *)
Lemma seconds_sample_not_within_a_second :
  ~ (exists a b,
        normalizeTimestamp noHostParse (TsNum msSample) = inl a /\
        normalizeTimestamp noHostParse (TsNum secondsSample) = inl b /\
        within 1000 a b).
Proof.
  intros (a & b & Ha & Hb & Hab).
  vm_compute in Ha, Hb.
  inversion Ha; inversion Hb; subst.
  unfold within in Hab. vm_compute in Hab. apply Hab. reflexivity.
Qed.

(** C3, amended: every numeric timestamp is taken as epoch milliseconds,
    whatever its magnitude (there is no seconds threshold), and is rejected
    only outside the range of a Date; so 1769541612369 normalizes to that very
    millisecond, 1769541612 to 1769541612 ms after the epoch, and the string
    "2026-01-27T19:19:13.629Z" normalizes exactly to that ISO instant. *)
Theorem normalizeTimestamp_numbers_are_milliseconds :
  forall (h : string -> option Date),
    (forall n : Z,
        normalizeTimestamp h (TsNum n)
        = if Z.abs n <=? maxTimeValue then inl n
          else inr (InvalidTimestamp n)) /\
    normalizeTimestamp h (TsNum msSample) = inl 1769541612369 /\
    normalizeTimestamp h (TsNum secondsSample) = inl 1769541612 /\
    toISOString 1769541612 = "1970-01-21T11:32:21.612Z" /\
    (exists d, normalizeTimestamp h (TsStr isoSample) = inl d /\
               toISOString d = isoSample).
Proof.
  intros h. split; [apply normalizeTimestamp_number |].
  repeat split; try reflexivity.
  exists 1769541553629. split; reflexivity.
Qed.

(** C9: a record with an identifier whose timestamp is the number 0 or the
    empty string is transformed successfully, with a null timestamp, exactly
    as if the field were absent; and whenever a row carries a timestamp, the
    raw value was truthy and is what [normalizeTimestamp] parsed. *)
Theorem transformEvent_falsy_timestamp_is_null :
  forall (h : string -> option Date) (raw : RawEvent),
    truthyOpt (raw_id raw) = true ->
    raw_timestamp raw = TsNum 0 \/ raw_timestamp raw = TsStr EmptyString ->
    (exists i,
        raw_id raw = Some i /\
        transformEvent h raw
        = inl (mkRow i (if truthyOpt (raw_type raw) then raw_type raw else None)
                 None raw)) /\
    (forall (raw' : RawEvent) (row : TransformedRow) (d : Date),
        transformEvent h raw' = inl row ->
        timestamp row = Some d ->
        truthyTs (raw_timestamp raw') = true /\
        normalizeTimestamp h (raw_timestamp raw') = inl d).
Proof.
  intros h raw Hid Hts. split.
  - destruct (raw_id raw) as [i|] eqn:Ei; [| discriminate].
    exists i. split; [reflexivity |].
    unfold transformEvent. rewrite Ei. simpl in Hid. simpl. rewrite Hid. simpl.
    destruct Hts as [-> | ->]; reflexivity.
  - intros raw' row d Hrow Hd.
    unfold transformEvent in Hrow.
    destruct (negb (truthyOpt (raw_id raw'))); [discriminate |].
    destruct (truthyTs (raw_timestamp raw')) eqn:Et.
    + split; [reflexivity |].
      destruct (normalizeTimestamp h (raw_timestamp raw')) as [d' | e];
        [| discriminate].
      inversion Hrow; subst. simpl in Hd. congruence.
    + inversion Hrow; subst. simpl in Hd. discriminate.
Qed.

Lemma transformEvent_falsy_timestamp_witness :
  exists i,
    raw_id epochEvent = Some i /\
    transformEvent noHostParse epochEvent
    = inl (mkRow i (if truthyOpt (raw_type epochEvent)
                    then raw_type epochEvent else None) None epochEvent).
Proof.
  apply (transformEvent_falsy_timestamp_is_null noHostParse epochEvent).
  - reflexivity.
  - left. reflexivity.
Defined.

End TransformerSpec.

(* ================================================================== *)
(** * Properties of the fetcher *)
(* ================================================================== *)

Module FetcherSpec.
Import Js Fetcher Fixtures.

Lemma before_app (xs ys : list Event) (c : Call) :
  before xs (before ys c) = before (xs ++ ys) c.
Proof. unfold before. simpl. rewrite app_assoc. reflexivity. Qed.

Lemma before_nil (c : Call) : before [] c = c.
Proof. destruct c. reflexivity. Qed.

Ltac split_status r :=
  repeat match goal with
    | |- context [status r =? ?k] => destruct (Z.eqb_spec (status r) k); try lia
    end.

(** A 5xx or network failure is retried while retries remain, and rethrown
    once they are used up. *)
Lemma transient_attempt (ep : string) (p : Params) (c : option string)
  (a : Z) (ae : AxiosError) (rest : list HttpResult) :
  transientFailure ae = true ->
  fetchLoop ep p c a (reject ae :: rest)
  = if a <? maxRetries
    then before [Get ep p; Delay (backoff (a + 1))]
           (fetchLoop ep p c (a + 1) rest)
    else mkCall [Get ep p] (Threw (Rethrown (IsAxios ae))) rest.
Proof.
  intros H. unfold reject. simpl.
  unfold transientFailure in H.
  unfold statusIs, cursorExpiredCode, isNetworkError, isServerError.
  destruct (response ae) as [r |].
  - apply Z.leb_le in H. split_status r. simpl.
    destruct (Z.leb_spec 500 (status r)); [| lia].
    rewrite orb_true_r. simpl. reflexivity.
  - simpl. reflexivity.
Qed.

(** A rate-limited attempt is always absorbed: same parameters, same retry
    budget. *)
Lemma rate_limited_attempt (ep : string) (p : Params) (c : option string)
  (a : Z) (ae : AxiosError) (rest : list HttpResult) :
  statusIs ae 429 = true ->
  fetchLoop ep p c a (reject ae :: rest)
  = before (rateLimitedAttempt ep p ae) (fetchLoop ep p c a rest).
Proof.
  intros H. unfold reject. simpl.
  unfold statusIs in *.
  destruct (response ae) as [r |]; [| discriminate].
  apply Z.eqb_eq in H. rewrite H. simpl. reflexivity.
Qed.

(** An expired cursor is dropped when the call holds a truthy one. *)
Lemma cursor_expired_attempt (ep : string) (p : Params) (c : option string)
  (a : Z) (ae : AxiosError) (rest : list HttpResult) :
  cursorRejected ae = true ->
  truthyOpt c = true ->
  fetchLoop ep p c a (reject ae :: rest)
  = before [Get ep p; Warn CursorExpiredWarning]
      (fetchLoop ep (mkParams (limit p) None) None a rest).
Proof.
  intros H Hc. unfold reject. simpl.
  unfold cursorRejected in H. apply andb_prop in H as [H1 H2].
  rewrite H1, H2, Hc. simpl.
  unfold statusIs in *.
  destruct (response ae) as [r |]; [| discriminate].
  apply Z.eqb_eq in H1. rewrite H1. simpl. reflexivity.
Qed.

(** C6: when the source answers every attempt of a call with a 5xx or a
    network failure, [fetchPage] makes exactly four requests, sleeps 1000,
    2000 and 4000 ms between them, and then rethrows the fourth failure to
    its caller without reading any further answer. *)
Theorem fetchPage_retry_exhaustion :
  forall (hasStreamToken : bool) (lim : Z) (cur : option string)
         (e1 e2 e3 e4 : AxiosError) (rest : list HttpResult),
    transientFailure e1 = true ->
    transientFailure e2 = true ->
    transientFailure e3 = true ->
    transientFailure e4 = true ->
    let call := fetchPage hasStreamToken lim cur
                  (reject e1 :: reject e2 :: reject e3 :: reject e4 :: rest) in
    attempts call = 4%nat /\
    delays call = [JInt 1000; JInt 2000; JInt 4000] /\
    outcome call = Threw (Rethrown (IsAxios e4)) /\
    unread call = rest.
Proof.
  intros tok lim cur e1 e2 e3 e4 rest H1 H2 H3 H4 call.
  subst call. unfold fetchPage.
  rewrite (transient_attempt _ _ _ 0 e1) by assumption.
  rewrite (transient_attempt _ _ _ (0 + 1) e2) by assumption.
  rewrite (transient_attempt _ _ _ (0 + 1 + 1) e3) by assumption.
  rewrite (transient_attempt _ _ _ (0 + 1 + 1 + 1) e4) by assumption.
  repeat split.
Qed.

Lemma fetchPage_retry_exhaustion_witness :
  let call := fetchPage false 5000 None
                (reject internalError :: reject internalError
                 :: reject internalError :: reject internalError :: []) in
  attempts call = 4%nat /\
  delays call = [JInt 1000; JInt 2000; JInt 4000] /\
  outcome call = Threw (Rethrown (IsAxios internalError)) /\
  unread call = [].
Proof.
  apply (fetchPage_retry_exhaustion false 5000 None
           internalError internalError internalError internalError []);
    reflexivity.
Defined.

Lemma rate_limited_run (ep : string) (p : Params) (c : option string) (a : Z)
  (rs : list AxiosError) (rest : list HttpResult) :
  Forall (fun ae => statusIs ae 429 = true) rs ->
  fetchLoop ep p c a (map reject rs ++ rest)
  = before (flat_map (rateLimitedAttempt ep p) rs) (fetchLoop ep p c a rest).
Proof.
  induction 1 as [| ae rs Hae _ IH].
  - simpl. rewrite before_nil. reflexivity.
  - cbn [map app flat_map].
    rewrite rate_limited_attempt by assumption.
    rewrite IH, before_app. reflexivity.
Qed.

(** C7: any run of consecutive rate-limited answers is absorbed inside the
    call: each one costs a request, a warning and a sleep of (hint + 1)
    seconds, where the hint is the integer read from the retry-after header,
    after which the call goes on as if it had not happened; a call that only
    ever sees rate-limited answers is still waiting, it has not thrown. *)
Theorem rate_limit_is_absorbed :
  forall (ep : string) (p : Params) (c : option string) (a : Z)
         (rs : list AxiosError) (rest : list HttpResult),
    Forall (fun ae => statusIs ae 429 = true) rs ->
    fetchLoop ep p c a (map reject rs ++ rest)
    = before (flat_map (rateLimitedAttempt ep p) rs) (fetchLoop ep p c a rest)
    /\
    (forall ae resp hint n,
        In ae rs ->
        response ae = Some resp ->
        retryAfterHeader resp = Some hint ->
        parseInt10 hint = JInt n ->
        rateLimitDelay ae = JInt ((n + 1) * 1000)) /\
    outcome (fetchLoop ep p c a (map reject rs)) = Pending /\
    (forall page,
        outcome (fetchLoop ep p c a (map reject rs ++ [Resolved page]))
        = Returned page).
Proof.
  intros ep p c a rs rest H. split; [| split; [| split]].
  - apply rate_limited_run. exact H.
  - intros ae resp hint n _ Hr Hh Hn.
    unfold rateLimitDelay, retryAfter. rewrite Hr, Hh, Hn. reflexivity.
  - rewrite <- (app_nil_r (map reject rs)).
    rewrite rate_limited_run by exact H. reflexivity.
  - intros page. rewrite rate_limited_run by exact H. reflexivity.
Qed.

Lemma rate_limit_is_absorbed_witness :
  let call := fetchPage false 5000 None
                (reject (tooManyRequests "5")
                 :: Resolved threeRecords :: []) in
  outcome call = Returned threeRecords /\ delays call = [JInt 6000].
Proof.
  pose proof (rate_limit_is_absorbed baseEndpoint (mkParams 5000 None) None 0
                [tooManyRequests "5"] [Resolved threeRecords]) as H.
  destruct H as (Heq & Hdelay & _ & _).
  - constructor; [reflexivity | constructor].
  - unfold fetchPage. simpl truthyOpt. cbv iota.
    change (reject (tooManyRequests "5") :: Resolved threeRecords :: [])
      with (map reject [tooManyRequests "5"] ++ [Resolved threeRecords]).
    rewrite Heq. split; reflexivity.
Defined.

(** C8, as stated, fails for the empty string, a cursor that is not null:
    the request goes out without a cursor, and the cursor-expired answer is
    rethrown to the caller. *)
Lemma empty_cursor_expiry_is_thrown :
  outcome (fetchPage false 5000 (Some EmptyString)
             [reject cursorExpired; Resolved threeRecords])
  = Threw (Rethrown (IsAxios cursorExpired)).
Proof. reflexivity. Qed.

(** C8, amended: when a fetch made with a non-null and non-empty cursor is
    answered with the cursor-expired code, [fetchPage] warns, clears the
    cursor and retries the same call without one; if that retry succeeds the
    caller gets its page, not an error. *)
Theorem expired_cursor_is_cleared :
  forall (hasStreamToken : bool) (lim : Z) (cur : string) (ae : AxiosError)
         (page : FetchPageResult) (rest : list HttpResult),
    truthyStr cur = true ->
    cursorRejected ae = true ->
    let ep := if hasStreamToken then streamEndpoint else baseEndpoint in
    (forall answers,
        fetchPage hasStreamToken lim (Some cur) (reject ae :: answers)
        = before [Get ep (mkParams lim (Some cur)); Warn CursorExpiredWarning]
            (fetchPage hasStreamToken lim None answers)) /\
    fetchPage hasStreamToken lim (Some cur) (reject ae :: Resolved page :: rest)
    = mkCall [Get ep (mkParams lim (Some cur)); Warn CursorExpiredWarning;
              Get ep (mkParams lim None)]
        (Returned page) rest.
Proof.
  intros tok lim cur ae page rest Hc Hae ep.
  assert (Hstep : forall answers,
             fetchPage tok lim (Some cur) (reject ae :: answers)
             = before [Get ep (mkParams lim (Some cur));
                       Warn CursorExpiredWarning]
                 (fetchPage tok lim None answers)).
  { intros answers. unfold fetchPage. simpl truthyOpt. rewrite Hc.
    rewrite cursor_expired_attempt by assumption. reflexivity. }
  split; [exact Hstep |].
  rewrite Hstep. reflexivity.
Qed.

Lemma expired_cursor_is_cleared_witness :
  fetchPage true 40000 (Some "cur-5")
    (reject cursorExpired :: Resolved threeRecords :: [])
  = mkCall [Get streamEndpoint (mkParams 40000 (Some "cur-5"));
            Warn CursorExpiredWarning;
            Get streamEndpoint (mkParams 40000 None)]
      (Returned threeRecords) [].
Proof.
  apply (expired_cursor_is_cleared true 40000 "cur-5" cursorExpired
           threeRecords []); reflexivity.
Defined.

End FetcherSpec.

(* ================================================================== *)
(** * Properties of the merge into [ingested_events] *)
(* ================================================================== *)

Module StoreSpec.
Import Transformer Store.

Lemma hasId_In (i : string) (rows : list TransformedRow) :
  hasId i rows = true <-> In i (ids rows).
Proof.
  unfold hasId, ids. rewrite existsb_exists, in_map_iff. split.
  - intros (r & Hr & He). apply String.eqb_eq in He. exists r. auto.
  - intros (r & He & Hr). exists r. split; [exact Hr |].
    apply String.eqb_eq. exact He.
Qed.

Lemma mergeRows_app (d a b : list TransformedRow) :
  mergeRows d (a ++ b) = mergeRows (mergeRows d a) b.
Proof. unfold mergeRows. apply fold_left_app. Qed.

Lemma ids_insertOrSkip (d : list TransformedRow) (r : TransformedRow) (i : string) :
  In i (ids (insertOrSkip d r)) <-> In i (ids d) \/ i = id r.
Proof.
  unfold insertOrSkip. destruct (hasId (id r) d) eqn:E.
  - apply hasId_In in E. split; [auto | intros [H | ->]; assumption].
  - unfold ids. rewrite map_app, in_app_iff. simpl. intuition congruence.
Qed.

Lemma NoDup_insertOrSkip (d : list TransformedRow) (r : TransformedRow) :
  NoDup (ids d) -> NoDup (ids (insertOrSkip d r)).
Proof.
  intros H. unfold insertOrSkip. destruct (hasId (id r) d) eqn:E; [exact H |].
  unfold ids. rewrite map_app. simpl.
  assert (Hn : ~ In (id r) (ids d)).
  { intros Hin. apply hasId_In in Hin. congruence. }
  clear E. revert H Hn. unfold ids.
  induction (map id d) as [| x xs IH]; intros Hnd Hn.
  - simpl. constructor; [intros [] | constructor].
  - simpl. inversion Hnd; subst. constructor.
    + rewrite in_app_iff. simpl. intros [Hx | [Hx | []]]; [auto |].
      apply Hn. left. symmetry. exact Hx.
    + apply IH; [assumption |]. intros Hx. apply Hn. right. exact Hx.
Qed.

Lemma ids_mergeRows (s d : list TransformedRow) (i : string) :
  In i (ids (mergeRows d s)) <-> In i (ids d) \/ In i (ids s).
Proof.
  revert d. induction s as [| r s IH]; intros d; simpl.
  - tauto.
  - change (mergeRows d (r :: s)) with (mergeRows (insertOrSkip d r) s).
    rewrite IH, ids_insertOrSkip. intuition congruence.
Qed.

Lemma NoDup_mergeRows (s d : list TransformedRow) :
  NoDup (ids d) -> NoDup (ids (mergeRows d s)).
Proof.
  revert d. induction s as [| r s IH]; intros d H; simpl; [exact H |].
  apply IH, NoDup_insertOrSkip, H.
Qed.

(** Merging rows whose identifiers are all present changes nothing. *)
Lemma mergeRows_present (s d : list TransformedRow) :
  (forall i, In i (ids s) -> In i (ids d)) -> mergeRows d s = d.
Proof.
  induction s as [| r s IH]; intros H; simpl; [reflexivity |].
  unfold insertOrSkip.
  assert (E : hasId (id r) d = true).
  { apply hasId_In, H. left. reflexivity. }
  rewrite E. apply IH. intros i Hi. apply H. right. exact Hi.
Qed.

Lemma mergeRows_idempotent (s d : list TransformedRow) :
  mergeRows (mergeRows d s) s = mergeRows d s.
Proof.
  apply mergeRows_present. intros i Hi. apply ids_mergeRows. right. exact Hi.
Qed.

Lemma length_mergeRows (s d : list TransformedRow) :
  NoDup (ids d) ->
  List.length (mergeRows d s)
  = List.length (nodup string_dec (ids d ++ ids s)).
Proof.
  intros H.
  rewrite <- (length_map id (mergeRows d s)). fold (ids (mergeRows d s)).
  apply Nat.le_antisymm; apply NoDup_incl_length.
  - apply NoDup_mergeRows, H.
  - intros i Hi. apply nodup_In, in_app_iff, ids_mergeRows, Hi.
  - apply NoDup_nodup.
  - intros i Hi. apply ids_mergeRows, in_app_iff. eapply nodup_In, Hi.
Qed.

End StoreSpec.

(* ================================================================== *)
(** * Properties of the writer, the checkpoint and the pipeline *)
(* ================================================================== *)

Module EngineSpec.
Import Js Transformer Store Engine Fixtures StoreSpec.

(** What a committed flush of [batch] does to the tables. *)
Lemma flushed_tables (batch : list TransformedRow) (t : Tables) :
  truncateStaging (upsertQuery (stagingQuery batch t))
  = mkTables [] (mergeRows (ingested_events t) (staging_events t ++ batch))
      (cursor_state t).
Proof. reflexivity. Qed.

Ltac case_faults :=
  repeat match goal with
    | |- context [if ?f ?n then _ else _] =>
        destruct (f n) eqn:?; cbn
    end.

(** The whole effect of [flush]: the buffer is emptied in every case; the
    tables change only when the transaction commits. *)
Lemma flush_effect (faulty : nat -> bool) (e : Env) :
  session e = None ->
  let r := flush faulty e in
  buffer (snd r) = [] /\
  session (snd r) = None /\
  state (snd r) = state e /\
  stopIn (snd r) = stopIn e /\
  http (snd r) = http e /\
  trace (snd r) = trace e /\
  ((fst r = Val tt /\
    tables (snd r)
    = match buffer e with
      | [] => tables e
      | _ :: _ => truncateStaging (upsertQuery (stagingQuery (buffer e) (tables e)))
      end) \/
   (exists n, fst r = Throw (DbFailed n) /\ tables (snd r) = tables e)).
Proof.
  intros Hs. destruct e as [t ses n b st stop h tr]. simpl in Hs. subst ses.
  unfold flush, bind, get. cbn.
  destruct b as [| row b].
  - cbn. repeat split. left. split; reflexivity.
  - cbn. unfold connect, begin, clientQuery, commit, rollback, tryCatch,
      dbCall, modify, bind, throw. cbn.
    case_faults; repeat split; eauto.
Qed.

(** On a database that never fails, [flush] commits the buffer. *)
Lemma flush_healthy (e : Env) :
  session e = None ->
  staging_events (tables e) = [] ->
  let r := flush healthy e in
  fst r = Val tt /\
  buffer (snd r) = [] /\
  session (snd r) = None /\
  tables (snd r)
  = mkTables [] (mergeRows (ingested_events (tables e)) (buffer e))
      (cursor_state (tables e)) /\
  state (snd r) = state e /\
  stopIn (snd r) = stopIn e /\
  http (snd r) = http e /\
  trace (snd r) = trace e.
Proof.
  intros Hs Hst. destruct e as [[stg ing cs] ses n b st stop h tr].
  simpl in Hs, Hst. subst ses stg.
  destruct b as [| row b]; cbn; repeat split.
Qed.

(** [add], one row at a time. *)
Lemma add_cons (faulty : nat -> bool) (batchSize : Z) (row : TransformedRow)
  (rest : list TransformedRow) (e : Env) :
  add faulty batchSize (row :: rest) e
  = let e1 := setBuffer (buffer e ++ [row]) e in
    if Z.of_nat (List.length (buffer e1)) >=? batchSize
    then match flush faulty e1 with
         | (Val _, e2) => add faulty batchSize rest e2
         | (Throw x, e2) => (Throw x, e2)
         | (Hang, e2) => (Hang, e2)
         end
    else add faulty batchSize rest e1.
Proof.
  cbn [add]. unfold bind, modify, get, ret. cbv zeta.
  destruct (Z.of_nat (List.length (buffer (setBuffer (buffer e ++ [row]) e)))
            >=? batchSize); reflexivity.
Qed.

(** On a database that never fails, [add] succeeds, and what is committed
    together with what is still buffered is what a single merge of
    everything handed over would have given. *)
Lemma add_healthy (batchSize : Z) (rows : list TransformedRow) :
  forall e : Env,
    session e = None ->
    staging_events (tables e) = [] ->
    let r := add healthy batchSize rows e in
    fst r = Val tt /\
    session (snd r) = None /\
    staging_events (tables (snd r)) = [] /\
    cursor_state (tables (snd r)) = cursor_state (tables e) /\
    state (snd r) = state e /\
    stopIn (snd r) = stopIn e /\
    http (snd r) = http e /\
    trace (snd r) = trace e /\
    mergeRows (ingested_events (tables (snd r))) (buffer (snd r))
    = mergeRows (ingested_events (tables e)) (buffer e ++ rows).
Proof.
  induction rows as [| row rest IH]; intros e Hs Hst.
  - cbn. rewrite app_nil_r. repeat split; assumption.
  - rewrite add_cons. cbv zeta.
    set (e1 := setBuffer (buffer e ++ [row]) e).
    assert (Hb : buffer e ++ row :: rest = buffer e1 ++ rest).
    { subst e1. simpl. rewrite <- app_assoc. reflexivity. }
    destruct (Z.of_nat (List.length (buffer e1)) >=? batchSize).
    + pose proof (flush_healthy e1 Hs Hst) as F. cbv zeta in F.
      destruct (flush healthy e1) as [r e2]. simpl in F.
      destruct F as (-> & Fb & Fs & Ft & Fst & Fstop & Fh & Ftr).
      assert (Hst2 : staging_events (tables e2) = []) by (rewrite Ft; reflexivity).
      specialize (IH e2 Fs Hst2). cbv zeta in IH.
      destruct IH as (I1 & I2 & I3 & I4 & I5 & I6 & I7 & I8 & I9).
      repeat split; try assumption; try congruence.
      * rewrite I4, Ft. reflexivity.
      * rewrite I9, Fb, Ft, Hb. cbn [ingested_events app buffer e1 setBuffer].
        symmetry. apply mergeRows_app.
    + specialize (IH e1 Hs Hst). cbv zeta in IH.
      destruct IH as (I1 & I2 & I3 & I4 & I5 & I6 & I7 & I8 & I9).
      repeat split; try assumption. rewrite I9, Hb. reflexivity.
Qed.

Lemma addAndFlush_healthy (batchSize : Z) (rows : list TransformedRow) (e : Env) :
  session e = None ->
  staging_events (tables e) = [] ->
  let r := addAndFlush healthy batchSize rows e in
  fst r = Val tt /\
  buffer (snd r) = [] /\
  session (snd r) = None /\
  tables (snd r)
  = mkTables [] (mergeRows (ingested_events (tables e)) (buffer e ++ rows))
      (cursor_state (tables e)) /\
  state (snd r) = state e /\
  stopIn (snd r) = stopIn e /\
  http (snd r) = http e /\
  trace (snd r) = trace e.
Proof.
  intros Hs Hst. unfold addAndFlush, bind.
  pose proof (add_healthy batchSize rows e Hs Hst) as A. cbv zeta in A.
  destruct (add healthy batchSize rows e) as [r e1]. simpl in A.
  destruct A as (-> & A2 & A3 & A4 & A5 & A6 & A7 & A8 & A9).
  pose proof (flush_healthy e1 A2 A3) as F. cbv zeta in F.
  destruct (flush healthy e1) as [r e2]. simpl in F. simpl.
  destruct F as (-> & Fb & Fs & Ft & Fst & Fstop & Fh & Ftr).
  repeat split; congruence.
Qed.

(** C4: adding and flushing the same rows twice, on a database that does
    not fail and whose destination respects its primary key, succeeds both
    times; the second round changes nothing, and the destination then holds
    exactly one row for every identifier of the rows: as many rows as there
    are distinct identifiers (those it already held included). *)
Theorem flush_twice_is_idempotent :
  forall (batchSize : Z) (rows : list TransformedRow) (t : Tables),
    staging_events t = [] ->
    NoDup (ids (ingested_events t)) ->
    let once := addAndFlush healthy batchSize rows (boot t None []) in
    let twice := addAndFlush healthy batchSize rows (snd once) in
    let dest := ingested_events (tables (snd twice)) in
    fst once = Val tt /\
    fst twice = Val tt /\
    tables (snd twice) = tables (snd once) /\
    (forall i, In i (ids rows) -> count_occ string_dec (ids dest) i = 1%nat) /\
    List.length dest
    = List.length (nodup string_dec (ids (ingested_events t) ++ ids rows)).
Proof.
  intros bs rows t Hst Hnd once twice dest.
  pose proof (addAndFlush_healthy bs rows (boot t None []) eq_refl Hst) as A.
  cbv zeta in A. fold once in A.
  destruct A as (A1 & A2 & A3 & A4 & _).
  assert (Hst1 : staging_events (tables (snd once)) = [])
    by (rewrite A4; reflexivity).
  pose proof (addAndFlush_healthy bs rows (snd once) A3 Hst1) as B.
  cbv zeta in B. fold twice in B.
  destruct B as (B1 & B2 & B3 & B4 & _).
  assert (Hdest : dest = mergeRows (ingested_events t) rows).
  { subst dest. rewrite B4, A2, A4. simpl. apply mergeRows_idempotent. }
  repeat split; try assumption.
  - rewrite B4, A2, A4. simpl. rewrite mergeRows_idempotent. reflexivity.
  - intros i Hi. rewrite Hdest.
    apply NoDup_count_occ'; [apply NoDup_mergeRows, Hnd |].
    apply ids_mergeRows. right. exact Hi.
  - rewrite Hdest. apply length_mergeRows, Hnd.
Qed.

Lemma flush_twice_is_idempotent_witness :
  List.length
    (ingested_events
       (tables
          (snd (addAndFlush healthy 2 sampleRows
                  (snd (addAndFlush healthy 2 sampleRows
                          (boot emptyDb None [])))))))
  = List.length (nodup string_dec (ids sampleRows)).
Proof.
  apply (flush_twice_is_idempotent 2 sampleRows emptyDb).
  - reflexivity.
  - constructor.
Defined.

Lemma flush_empty (faulty : nat -> bool) (e : Env) :
  buffer e = [] -> flush faulty e = (Val tt, e).
Proof. intros H. unfold flush, bind, get. rewrite H. reflexivity. Qed.

(** C2, as stated, fails: when the staging insert of a flush fails, the
    three buffered rows are gone from the buffer, and a second [flush] has
    nothing to write. *)
Lemma failed_flush_loses_the_batch :
  let failed := flush (failsAt 2) loadedWriter in
  buffer loadedWriter = sampleRows /\
  fst failed = Throw (DbFailed 2) /\
  buffer (snd failed) = [] /\
  ingested_events (tables (snd (flush healthy (snd failed)))) = [].
Proof. repeat split. Qed.

(** C2, amended: when [flush] fails, the tables are exactly what they were
    before the call (the batch is all-or-nothing), but the buffer has already
    been emptied: the rows of the failed batch are no longer held by the
    writer, and a retried [flush] is a no-op that writes nothing. *)
Theorem failed_flush_rolls_back_and_empties_buffer :
  forall (faulty : nat -> bool) (e : Env) (x : Exn),
    session e = None ->
    fst (flush faulty e) = Throw x ->
    let e' := snd (flush faulty e) in
    tables e' = tables e /\
    session e' = None /\
    buffer e' = [] /\
    (forall faulty', flush faulty' e' = (Val tt, e')).
Proof.
  intros faulty e x Hs Hx e'.
  pose proof (flush_effect faulty e Hs) as F. cbv zeta in F. fold e' in F.
  destruct F as (Fb & Fs & _ & _ & _ & _ & [[Hv _] | (n & _ & Ht)]).
  - rewrite Hv in Hx. discriminate.
  - repeat split; try assumption.
    intros faulty'. apply flush_empty. exact Fb.
Qed.

Lemma failed_flush_rolls_back_witness :
  let e' := snd (flush (failsAt 4) loadedWriter) in
  tables e' = tables loadedWriter /\
  session e' = None /\
  buffer e' = [] /\
  (forall faulty', flush faulty' e' = (Val tt, e')).
Proof.
  apply (failed_flush_rolls_back_and_empties_buffer (failsAt 4) loadedWriter
           (DbFailed 4)); reflexivity.
Defined.

(** C1 does not hold of the code.  With the writer's default batch size of
    5000, a page of three records is only buffered by [add], and the
    checkpoint (cur-final, 3) is inserted while [ingested_events] is still
    empty; if the flush at shutdown then fails, the run ends with that
    checkpoint durable and none of its three rows written or buffered. *)
Theorem checkpoint_persisted_before_rows :
  let paged := processPage healthy noHostParse 5000 5000 threeRecords
                 (boot emptyDb None []) in
  let crashed := run (failsAt 4) noHostParse false 5000
                   (boot emptyDb None [Fetcher.Resolved threeRecords]) in
  (fst paged = Val tt /\
   cursor_state (tables (snd paged)) = [finalCheckpoint] /\
   ingested_events (tables (snd paged)) = [] /\
   List.length (buffer (snd paged)) = 3%nat) /\
  (fst crashed = Throw (DbFailed 4) /\
   cursor_state (tables (snd crashed)) = [finalCheckpoint] /\
   ingested_events (tables (snd crashed)) = [] /\
   buffer (snd crashed) = []).
Proof. vm_compute. repeat split. Qed.

Lemma saveCursor_some (e : Env) (c : string) :
  cursor (state e) = Some c ->
  saveCursor healthy e
  = (Val tt,
     setTables (insertCursor c (eventsIngested (state e)) (tables e)) (tick e)).
Proof.
  intros H. unfold saveCursor, bind, get. rewrite H. reflexivity.
Qed.

(** [processPage] on a non-empty page that transforms. *)
Lemma processPage_step (faulty : nat -> bool) (h : string -> option Date)
  (batchSize limit : Z) (page : Fetcher.FetchPageResult)
  (rows : list TransformedRow) (e : Env) :
  Fetcher.data page <> [] ->
  transformEvents h (Fetcher.data page) = inl rows ->
  processPage faulty h batchSize limit page e
  = match add faulty batchSize rows e with
    | (Val _, e1) =>
        let e2 := setState (update (state e1) (Fetcher.nextCursor page)
                              (Z.of_nat (List.length rows))) e1 in
        if Z.rem (eventsIngested (state e2)) 50000 <? limit
        then saveCursor faulty e2 else (Val tt, e2)
    | (Throw x, e1) => (Throw x, e1)
    | (Hang, e1) => (Hang, e1)
    end.
Proof.
  intros Hne Hrows. unfold processPage.
  destruct (Fetcher.data page) as [| raw raws] eqn:Ed; [congruence |].
  unfold transformAll. rewrite Hrows.
  unfold bind, ret, modify, get.
  destruct (add faulty batchSize rows e) as [[u | x |] e1]; try reflexivity.
  cbv zeta.
  destruct (Z.rem _ 50000 <? limit); reflexivity.
Qed.

(** One non-empty page on a database that never fails. *)
Lemma processPage_healthy (h : string -> option Date) (batchSize limit : Z)
  (page : Fetcher.FetchPageResult) (rows : list TransformedRow) (e : Env) :
  Fetcher.data page <> [] ->
  transformEvents h (Fetcher.data page) = inl rows ->
  session e = None ->
  staging_events (tables e) = [] ->
  let r := processPage healthy h batchSize limit page e in
  let n := eventsIngested (state e) + Z.of_nat (List.length rows) in
  fst r = Val tt /\
  session (snd r) = None /\
  staging_events (tables (snd r)) = [] /\
  state (snd r) = mkCursorState (Some (Fetcher.nextCursor page)) n /\
  cursor_state (tables (snd r))
  = cursor_state (tables e)
    ++ (if Z.rem n 50000 <? limit
        then [mkCursorRow (Fetcher.nextCursor page) n] else []) /\
  mergeRows (ingested_events (tables (snd r))) (buffer (snd r))
  = mergeRows (ingested_events (tables e)) (buffer e ++ rows) /\
  stopIn (snd r) = stopIn e /\
  http (snd r) = http e /\
  trace (snd r) = trace e.
Proof.
  intros Hne Hrows Hs Hst.
  rewrite (processPage_step healthy h batchSize limit page rows e Hne Hrows).
  pose proof (add_healthy batchSize rows e Hs Hst) as A. cbv zeta in A.
  destruct (add healthy batchSize rows e) as [ra e1]. simpl in A.
  destruct A as (-> & A2 & A3 & A4 & A5 & A6 & A7 & A8 & A9).
  cbv zeta. cbn [state setState update eventsIngested]. rewrite A5.
  destruct (Z.rem (eventsIngested (state e) + Z.of_nat (List.length rows)) 50000
            <? limit).
  - rewrite saveCursor_some with (c := Fetcher.nextCursor page) by reflexivity.
    cbn. rewrite ?A4, ?A5. repeat split; assumption.
  - cbn. rewrite ?A4, ?A5, app_nil_r. repeat split; assumption.
Qed.

Lemma mergeRows_fresh (s d : list TransformedRow) :
  NoDup (ids (d ++ s)) -> mergeRows d s = d ++ s.
Proof.
  revert d. induction s as [| r s IH]; intros d H; simpl.
  - rewrite app_nil_r. reflexivity.
  - unfold insertOrSkip.
    assert (E : hasId (id r) d = false).
    { destruct (hasId (id r) d) eqn:E; [| reflexivity].
      apply hasId_In in E. unfold ids in H. rewrite map_app in H. simpl in H.
      apply NoDup_remove_2 in H. exfalso. apply H.
      apply in_app_iff. left. exact E. }
    rewrite E. change (fold_left insertOrSkip s (d ++ [r]))
      with (mergeRows (d ++ [r]) s).
    rewrite IH; rewrite <- app_assoc; [reflexivity | exact H].
Qed.

Lemma transformEvents_length (h : string -> option Date) (raws : list RawEvent) :
  forall rows, transformEvents h raws = inl rows ->
               List.length rows = List.length raws.
Proof.
  induction raws as [| raw raws IH]; intros rows H; simpl in H.
  - inversion H. reflexivity.
  - destruct (transformEvent h raw); [| discriminate].
    destruct (transformEvents h raws); [| discriminate].
    inversion H. simpl. f_equal. apply IH. reflexivity.
Qed.

(** The run over a source that answers with one last page, unfolded. *)
Lemma run_single_page (faulty : nat -> bool) (h : string -> option Date)
  (isStreamMode : bool) (batchSize : Z) (page : Fetcher.FetchPageResult) :
  Fetcher.hasMore page = false ->
  faulty O = false ->
  let limit := if isStreamMode then 40000 else 5000 in
  let endpoint := if isStreamMode then Fetcher.streamEndpoint
                  else Fetcher.baseEndpoint in
  let e0 := mkEnv emptyDb None 1 [] create None []
              [Fetcher.Get endpoint (Fetcher.mkParams limit None)] in
  run faulty h isStreamMode batchSize (boot emptyDb None [Fetcher.Resolved page])
  = match processPage faulty h batchSize limit page e0 with
    | (Val _, e1) =>
        match flush faulty e1 with
        | (Val _, e2) => saveCursor faulty e2
        | (Throw x, e2) => (Throw x, e2)
        | (Hang, e2) => (Hang, e2)
        end
    | (Throw x, e1) =>
        match flush faulty e1 with
        | (Val _, e2) =>
            match saveCursor faulty e2 with
            | (Val _, e3) => (Throw x, e3)
            | other => other
            end
        | other => other
        end
    | (Hang, e1) => (Hang, e1)
    end.
Proof.
  intros Hlast Hf limit endpoint e0.
  destruct page as [d hm nc]. simpl in Hlast. subst hm.
  unfold run, loadCursor, poolQuery, dbCall, bind at 1 2 3.
  cbn [boot dbCalls]. rewrite Hf.
  destruct isStreamMode; subst limit endpoint e0.
  - match goal with
    | |- _ = match ?pp with _ => _ end =>
        destruct pp as [[u | x |] e1] eqn:P
    end;
    cbv -[processPage flush saveCursor] in P |- *; rewrite P.
    + destruct (flush faulty e1) as [[u1 | x1 |] e2]; reflexivity.
    + destruct (flush faulty e1) as [[u1 | x1 |] e2]; try reflexivity.
      destruct (saveCursor faulty e2) as [[u2 | x2 |] e3]; reflexivity.
    + reflexivity.
  - match goal with
    | |- _ = match ?pp with _ => _ end =>
        destruct pp as [[u | x |] e1] eqn:P
    end;
    cbv -[processPage flush saveCursor] in P |- *; rewrite P.
    + destruct (flush faulty e1) as [[u1 | x1 |] e2]; reflexivity.
    + destruct (flush faulty e1) as [[u1 | x1 |] e2]; try reflexivity.
      destruct (saveCursor faulty e2) as [[u2 | x2 |] e3]; reflexivity.
    + reflexivity.
Qed.

(** C5, as stated, fails: in the scenario the checkpoint is inserted twice,
    once after the page and once more at shutdown. *)
Lemma single_page_checkpoint_saved_twice :
  cursor_state
    (tables
       (snd (run healthy noHostParse false 5000
               (boot emptyDb None [Fetcher.Resolved threeRecords]))))
  = [finalCheckpoint; finalCheckpoint].
Proof. vm_compute. reflexivity. Qed.

(** C5, amended: from an empty checkpoint store, when the source returns a
    single page of three records with hasMore = false, the engine sends
    exactly one request, writes the three rows, persists the checkpoint
    (final cursor, 3) twice, after the page and again at shutdown, and then
    stops cleanly.  This holds in both pacing modes and for every batch size
    of the writer. *)
Theorem single_page_scenario :
  forall (h : string -> option Date) (isStreamMode : bool) (batchSize : Z)
         (r1 r2 r3 : RawEvent) (cur : string) (rows : list TransformedRow),
    transformEvents h [r1; r2; r3] = inl rows ->
    let page := Fetcher.mkPage [r1; r2; r3] false cur in
    let limit := if isStreamMode then 40000 else 5000 in
    let endpoint := if isStreamMode then Fetcher.streamEndpoint
                    else Fetcher.baseEndpoint in
    let r := run healthy h isStreamMode batchSize
               (boot emptyDb None [Fetcher.Resolved page]) in
    fst r = Val tt /\
    trace (snd r) = [Fetcher.Get endpoint (Fetcher.mkParams limit None)] /\
    http (snd r) = [] /\
    List.length rows = 3%nat /\
    ingested_events (tables (snd r)) = mergeRows [] rows /\
    (NoDup (ids rows) -> ingested_events (tables (snd r)) = rows) /\
    cursor_state (tables (snd r)) = [mkCursorRow cur 3; mkCursorRow cur 3] /\
    buffer (snd r) = [] /\
    staging_events (tables (snd r)) = [].
Proof.
  intros h mode bs r1 r2 r3 cur rows Hrows page limit endpoint r.
  assert (Hlen : List.length rows = 3%nat)
    by (apply (transformEvents_length h [r1; r2; r3]); exact Hrows).
  assert (Hlim : (Z.rem 3 50000 <? limit) = true)
    by (subst limit; destruct mode; reflexivity).
  subst r.
  rewrite (run_single_page healthy h mode bs page eq_refl eq_refl).
  cbv zeta. fold limit. fold endpoint.
  set (e0 := mkEnv emptyDb None 1 [] create None []
               [Fetcher.Get endpoint (Fetcher.mkParams limit None)]).
  pose proof (processPage_healthy h bs limit page rows e0) as P.
  cbv zeta in P.
  destruct (processPage healthy h bs limit page e0) as [rp e1].
  cbn [fst snd] in P.
  destruct P as (P1 & P2 & P3 & P4 & P5 & P6 & P7 & P8 & P9);
    try (reflexivity || assumption || discriminate).
  subst rp.
  rewrite Hlen in P4, P5. cbn -[Z.rem Z.ltb] in P4, P5, P6, P8, P9.
  rewrite Hlim in P5.
  pose proof (flush_healthy e1 P2 P3) as F. cbv zeta in F.
  destruct (flush healthy e1) as [rf e2].
  cbn [fst snd] in F.
  destruct F as (F1 & F2 & F3 & F4 & F5 & F6 & F7 & F8).
  subst rf.
  rewrite (saveCursor_some e2 cur) by (rewrite F5, P4; reflexivity).
  cbn [fst snd tables setTables tick trace http buffer cursor_state
       ingested_events staging_events insertCursor].
  rewrite F2, F4, F5, F7, F8, P4, P5, P6, P8, P9.
  cbn [cursor_state ingested_events staging_events eventsIngested app].
  repeat split; try assumption.
  intros Hnd. apply (mergeRows_fresh rows []). exact Hnd.
Qed.

Lemma single_page_scenario_witness :
  let r := run healthy noHostParse false 2
             (boot emptyDb None [Fetcher.Resolved threeRecords]) in
  fst r = Val tt /\
  trace (snd r)
  = [Fetcher.Get Fetcher.baseEndpoint (Fetcher.mkParams 5000 None)] /\
  http (snd r) = [] /\
  cursor_state (tables (snd r)) = [finalCheckpoint; finalCheckpoint].
Proof.
  destruct (single_page_scenario noHostParse false 2
              (click "1") (click "2") (click "3") "cur-final"
              [mkRow "1" (Some "click") (Some 1767225600000) (click "1");
               mkRow "2" (Some "click") (Some 1767225600000) (click "2");
               mkRow "3" (Some "click") (Some 1767225600000) (click "3")]
              eq_refl)
    as (H1 & H2 & H3 & _ & _ & _ & H7 & _).
  repeat split; assumption.
Defined.

(** ** The checkpoint table while the cursor is null *)

Section Preservation.

Variable I : Env -> Prop.

Lemma preserves_ret {A} (a : A) : Preserves I (ret a).
  Proof. intros e H. exact H. Qed.

Lemma preserves_throw {A} (x : Exn) : Preserves I (@throw A x).
  Proof. intros e H. exact H. Qed.

Lemma preserves_hang {A} : Preserves I (@hang A).
  Proof. intros e H. exact H. Qed.

Lemma preserves_get : Preserves I get.
  Proof. intros e H. exact H. Qed.

Lemma preserves_modify (f : Env -> Env) :
    (forall e, I e -> I (f e)) -> Preserves I (modify f).
  Proof. intros Hf e H. apply Hf, H. Qed.

Lemma preserves_bind {A B} (m : M A) (k : A -> M B) :
    Preserves I m -> (forall a, Preserves I (k a)) -> Preserves I (bind m k).
  Proof.
    intros Hm Hk e H. unfold bind. specialize (Hm e H).
    destruct (m e) as [[a | x |] e']; simpl in *; try exact Hm.
    apply Hk, Hm.
  Qed.

Lemma preserves_tryCatch {A} (m : M A) (handler : Exn -> M A) :
    Preserves I m -> (forall x, Preserves I (handler x)) ->
    Preserves I (tryCatch m handler).
  Proof.
    intros Hm Hh e H. unfold tryCatch. specialize (Hm e H).
    destruct (m e) as [[a | x |] e']; simpl in *; try exact Hm.
    apply Hh, Hm.
  Qed.

Lemma preserves_dbCall (faulty : nat -> bool) (effect : Env -> Env) :
    (forall e, I e -> I (tick e)) ->
    (forall e, I e -> I (effect e)) ->
    Preserves I (dbCall faulty effect).
  Proof.
    intros Ht He e H. unfold dbCall.
    destruct (faulty (dbCalls e)); simpl; auto.
  Qed.

Lemma preserves_if {A} (b : bool) (m1 m2 : M A) :
    Preserves I m1 -> Preserves I m2 -> Preserves I (if b then m1 else m2).
  Proof. destruct b; auto. Qed.

End Preservation.

Section Untouched.

Variable cs0 : list CursorRow.
Variable faulty : nat -> bool.
Variable hostParse : string -> option Date.
Variable isStreamMode : bool.
Variable batchSize : Z.

Local Abbreviation Keeps := (Preserves (untouched cs0)).

Lemma untouched_tick e : untouched cs0 e -> untouched cs0 (tick e).
  Proof. exact (fun H => H). Qed.

Lemma untouched_setBuffer b e :
    untouched cs0 e -> untouched cs0 (setBuffer b e).
  Proof. exact (fun H => H). Qed.

Lemma untouched_setStopIn k e :
    untouched cs0 e -> untouched cs0 (setStopIn k e).
  Proof. exact (fun H => H). Qed.

Lemma untouched_setHttp a evs e :
    untouched cs0 e -> untouched cs0 (setHttp a evs e).
  Proof. exact (fun H => H). Qed.

Lemma untouched_endSession e :
    untouched cs0 e -> untouched cs0 (setSession None e).
  Proof.
    intros H Hc. destruct (H Hc) as [Ht _]. split; [exact Ht | discriminate].
  Qed.

Lemma untouched_with_cursor st e :
    cursor st <> None -> untouched cs0 (setState st e).
  Proof. intros H Hc. simpl in Hc. contradiction. Qed.

Lemma keeps_connect : Keeps (connect faulty).
  Proof. apply preserves_dbCall; auto using untouched_tick. Qed.

Lemma keeps_begin : Keeps (begin faulty).
  Proof.
    apply preserves_dbCall; [auto using untouched_tick |].
    intros e H Hc. destruct (H Hc) as [Ht _]. split; [exact Ht |].
    simpl. intros work Hw. inversion Hw. exact Ht.
  Qed.

Lemma keeps_clientQuery (stmt : Tables -> Tables) :
    (forall t, cursor_state (stmt t) = cursor_state t) ->
    Keeps (clientQuery faulty stmt).
  Proof.
    intros Hstmt. apply preserves_dbCall; [auto using untouched_tick |].
    intros e H. unfold untouched in *.
    destruct (session e) as [work |] eqn:Es; simpl; intros Hc;
      destruct (H Hc) as [Ht Hw].
    - split; [exact Ht |]. intros w E. inversion E.
      rewrite Hstmt. apply Hw. reflexivity.
    - split; [rewrite Hstmt; exact Ht | rewrite Es; discriminate].
  Qed.

Lemma keeps_commit : Keeps (commit faulty).
  Proof.
    apply preserves_dbCall; [auto using untouched_tick |].
    intros e H. unfold untouched in *.
    destruct (session e) as [work |] eqn:Es; simpl; intros Hc;
      destruct (H Hc) as [Ht Hw].
    - split; [apply Hw; reflexivity | discriminate].
    - split; [exact Ht | rewrite Es; discriminate].
  Qed.

Lemma keeps_rollback : Keeps (rollback faulty).
  Proof.
    unfold rollback. apply preserves_bind.
    - apply preserves_modify, untouched_endSession.
    - intros _. apply preserves_dbCall; auto using untouched_tick.
  Qed.

Lemma keeps_flush : Keeps (flush faulty).
  Proof.
    unfold flush. apply preserves_bind; [apply preserves_get |].
    intros e0. destruct (buffer e0) as [| row b]; [apply preserves_ret |].
    apply preserves_bind;
      [apply preserves_modify, untouched_setBuffer | intros _].
    apply preserves_bind; [apply keeps_connect | intros _].
    apply preserves_tryCatch.
    - repeat (apply preserves_bind; [| intros _]);
        auto using keeps_begin, keeps_commit;
        apply keeps_clientQuery; reflexivity.
    - intros x. apply preserves_bind; [apply keeps_rollback | intros _].
      apply preserves_throw.
  Qed.

Lemma keeps_add (rows : list TransformedRow) : Keeps (add faulty batchSize rows).
  Proof.
    induction rows as [| row rest IH]; [apply preserves_ret |].
    cbn [add]. apply preserves_bind.
    - apply preserves_modify. intros e. apply untouched_setBuffer.
    - intros _. apply preserves_bind; [| intros _; exact IH].
      apply preserves_bind; [apply preserves_get | intros e0].
      apply preserves_if; [apply keeps_flush | apply preserves_ret].
  Qed.

Lemma keeps_saveCursor : Keeps (saveCursor faulty).
  Proof.
    intros e H. unfold saveCursor, bind, get.
    destruct (cursor (state e)) as [c |] eqn:Ec; [| exact H].
    unfold poolQuery, dbCall.
    destruct (faulty (dbCalls e)); simpl; intros Hc; simpl in Hc; congruence.
  Qed.

Lemma keeps_shouldStop : Keeps shouldStop.
  Proof.
    intros e H. unfold shouldStop.
    destruct (stopIn e) as [[| k] |]; simpl; auto using untouched_setStopIn.
  Qed.

Lemma keeps_goOn (hasMore : bool) : Keeps (goOn hasMore).
  Proof.
    unfold goOn. apply preserves_if; [| apply preserves_ret].
    apply preserves_bind; [apply keeps_shouldStop |].
    intros stop. apply preserves_ret.
  Qed.

Lemma keeps_startFetch (limit : Z) (c : option string) :
    Keeps (startFetch isStreamMode limit c).
  Proof. intros e H. unfold startFetch. simpl. apply untouched_setHttp, H. Qed.

Lemma keeps_await (p : Fetcher.Outcome) : Keeps (await p).
  Proof.
    destruct p; [apply preserves_ret | apply preserves_throw | apply preserves_hang].
  Qed.

Lemma keeps_processPage (limit : Z) (page : Fetcher.FetchPageResult) :
    Keeps (processPage faulty hostParse batchSize limit page).
  Proof.
    unfold processPage. destruct (Fetcher.data page); [apply preserves_ret |].
    apply preserves_bind.
    - unfold transformAll. destruct (transformEvents hostParse _);
        [apply preserves_ret | apply preserves_throw].
    - intros rows. apply preserves_bind; [apply keeps_add | intros _].
      apply preserves_bind.
      + apply preserves_modify. intros e _.
        apply untouched_with_cursor. discriminate.
      + intros _. apply preserves_bind; [apply preserves_get | intros e0].
        apply preserves_if; [apply keeps_saveCursor | apply preserves_ret].
  Qed.

Lemma keeps_standardLoop (fuel : nat) :
    forall (limit : Z) (hasMore : bool),
      Keeps (standardLoop faulty hostParse isStreamMode batchSize fuel limit hasMore).
  Proof.
    induction fuel as [| fuel IH]; intros limit hasMore;
      [apply preserves_hang |].
    cbn [standardLoop].
    apply preserves_bind; [apply keeps_goOn | intros continue].
    destruct continue; [| apply preserves_ret].
    apply preserves_bind; [apply preserves_get | intros e0].
    apply preserves_bind; [apply keeps_startFetch | intros promise].
    apply preserves_bind; [apply keeps_await | intros page].
    apply preserves_bind; [apply keeps_processPage | intros _].
    apply preserves_bind; [apply keeps_goOn | intros _].
    apply IH.
  Qed.

Lemma keeps_overlapLoop (fuel : nat) :
    forall (limit : Z) (hasMore : bool) (pendingFetch : Fetcher.Outcome),
      Keeps (overlapLoop faulty hostParse isStreamMode batchSize fuel limit
               hasMore pendingFetch).
  Proof.
    induction fuel as [| fuel IH]; intros limit hasMore pendingFetch;
      [apply preserves_hang |].
    cbn [overlapLoop].
    apply preserves_bind; [apply keeps_goOn | intros continue].
    destruct continue; [| apply preserves_ret].
    apply preserves_bind; [apply keeps_await | intros page].
    apply preserves_bind; [apply keeps_goOn | intros next].
    apply preserves_bind.
    - apply preserves_if; [apply keeps_startFetch | apply preserves_ret].
    - intros pending'.
      apply preserves_bind; [apply keeps_processPage | intros _].
      apply IH.
  Qed.

  (** Everything [run] does once its [state] object exists. *)
Lemma keeps_run_body (limit : Z) (fuel : nat) (c : option string) :
    Keeps (tryCatch
             (if isStreamMode
              then bind (startFetch isStreamMode limit c)
                     (overlapLoop faulty hostParse isStreamMode batchSize fuel
                        limit true)
              else standardLoop faulty hostParse isStreamMode batchSize fuel
                     limit true)
             (fun err => close faulty ;; saveCursor faulty ;; throw err) ;;
           close faulty ;; saveCursor faulty).
  Proof.
    apply preserves_bind.
    - apply preserves_tryCatch.
      + apply preserves_if.
        * apply preserves_bind; [apply keeps_startFetch |].
          intros p. apply keeps_overlapLoop.
        * apply keeps_standardLoop.
      + intros x. apply preserves_bind; [apply keeps_flush | intros _].
        apply preserves_bind; [apply keeps_saveCursor | intros _].
        apply preserves_throw.
    - intros _. apply preserves_bind; [apply keeps_flush | intros _].
      apply keeps_saveCursor.
  Qed.

End Untouched.

Lemma run_keeps_checkpoints (faulty : nat -> bool)
  (h : string -> option Date) (isStreamMode : bool) (batchSize : Z)
  (t : Tables) (stop : option nat) (answers : list Fetcher.HttpResult) :
  untouched (cursor_state t)
    (snd (run faulty h isStreamMode batchSize (boot t stop answers))).
Proof.
  unfold run, loadCursor, poolQuery.
  unfold bind at 1. unfold bind at 1. unfold dbCall at 1.
  cbn [boot dbCalls].
  destruct (faulty O).
  - intros _. split; [reflexivity | discriminate].
  - unfold get at 1, ret at 1. cbv beta iota.
    set (e1 := setTables _ _).
    set (loaded := option_map fromRow (latestCursor (tables e1))).
    assert (U : untouched (cursor_state t)
                  (setState (match loaded with
                             | Some st => st
                             | None => create
                             end) e1)).
    { destruct loaded as [st |] eqn:El.
      - apply untouched_with_cursor.
        subst loaded. destruct (latestCursor (tables e1)); [| discriminate].
        inversion El. discriminate.
      - intros _. split; [reflexivity | discriminate]. }
    unfold bind at 1. unfold modify at 1. unfold bind at 1. unfold get at 1.
    cbv beta iota.
    apply keeps_run_body. exact U.
Qed.

(** C10: [saveCursor] on a state whose cursor is null returns at once,
    without a database call and leaving the environment as it was; hence a
    run started by a fresh process that ends, cleanly or with an error (or is
    still waiting for the source), with the cursor of its state still null
    has left the checkpoint table exactly as it found it: neither a
    checkpoint inside the loop nor the save at shutdown has written a row. *)
Theorem null_cursor_persists_nothing :
  forall (faulty : nat -> bool) (h : string -> option Date)
         (isStreamMode : bool) (batchSize : Z) (t : Tables)
         (stop : option nat) (answers : list Fetcher.HttpResult),
    (forall e : Env,
        cursor (state e) = None -> saveCursor faulty e = (Val tt, e)) /\
    (let r := run faulty h isStreamMode batchSize (boot t stop answers) in
     cursor (state (snd r)) = None ->
     cursor_state (tables (snd r)) = cursor_state t).
Proof.
  intros faulty h mode bs t stop answers. split.
  - intros e H. unfold saveCursor, bind, get. rewrite H. reflexivity.
  - intros r Hc.
    destruct (run_keeps_checkpoints faulty h mode bs t stop answers Hc)
      as [Ht _].
    exact Ht.
Qed.

Lemma null_cursor_persists_nothing_witness :
  let r := run healthy noHostParse false 5000 (boot emptyDb None sourceDown) in
  saveCursor healthy (boot emptyDb None sourceDown)
  = (Val tt, boot emptyDb None sourceDown) /\
  fst r = Throw (FetchFailed (Fetcher.Rethrown (Fetcher.IsAxios internalError)))
  /\
  cursor_state (tables (snd r)) = [].
Proof.
  destruct (null_cursor_persists_nothing healthy noHostParse false 5000
              emptyDb None sourceDown) as [Hsave Hrun].
  split; [apply Hsave; reflexivity |].
  split; [reflexivity |].
  apply Hrun. reflexivity.
Defined.

End EngineSpec.

(* ================================================================== *)
(** * More about the transformer *)
(* ================================================================== *)

Module TransformerMore.
Import Js Transformer Fixtures.

Lemma normalizeTimestamp_in_range (h : string -> option Date) (v : TsValue)
  (d : Date) :
  normalizeTimestamp h v = inl d -> Z.abs d <= maxTimeValue.
Proof.
  assert (R : forall n d', newDate n = Some d' -> Z.abs d' <= maxTimeValue).
  { intros n d'. unfold newDate.
    destruct (Z.leb_spec (Z.abs n) maxTimeValue); [| discriminate].
    intros E. inversion E. subst. assumption. }
  destruct v as [| | n | s]; simpl; try discriminate.
  - destruct (newDate n) eqn:E; [| discriminate].
    intros H. inversion H. subst. eapply R, E.
  - destruct (dateParse h s); [| discriminate].
    destruct (newDate d0) eqn:E; [| discriminate].
    intros H. inversion H. subst. eapply R, E.
Qed.

Lemma normalizeTimestamp_not_missing_id (h : string -> option Date) (v : TsValue) :
  normalizeTimestamp h v <> inr MissingId.
Proof.
  destruct v as [| | n | s]; simpl; try discriminate.
  - destruct (newDate n); discriminate.
  - destruct (dateParse h s) as [p |]; [| discriminate].
    destruct (newDate p); discriminate.
Qed.

(** X1: [transformEvent] reports a missing identifier exactly when the raw
    record has no id or an empty one, whatever its timestamp is: the id is
    checked first, and no timestamp failure is ever reported as a missing
    id. *)
Theorem transformEvent_missing_id_iff :
  forall (h : string -> option Date) (raw : RawEvent),
    transformEvent h raw = inr MissingId <-> truthyOpt (raw_id raw) = false.
Proof.
  intros h raw. unfold transformEvent.
  destruct (truthyOpt (raw_id raw)); simpl.
  - split; [| discriminate].
    destruct (truthyTs (raw_timestamp raw)); [| discriminate].
    pose proof (normalizeTimestamp_not_missing_id h (raw_timestamp raw)) as N.
    destruct (normalizeTimestamp h (raw_timestamp raw)); [discriminate |].
    intros E. inversion E. subst. contradiction.
  - split; reflexivity.
Qed.

(** X2: every row [transformEvent] produces carries the raw record's own
    non-empty id, the whole raw record as its data, an event type that is
    never the empty string, and a timestamp that is null exactly when the raw
    timestamp is falsy and otherwise a valid Date. *)
Theorem transformEvent_row_invariants :
  forall (h : string -> option Date) (raw : RawEvent) (row : TransformedRow),
    transformEvent h raw = inl row ->
    raw_id raw = Some (id row) /\
    id row <> EmptyString /\
    data row = raw /\
    event_type row <> Some EmptyString /\
    (timestamp row = None <-> truthyTs (raw_timestamp raw) = false) /\
    (forall d, timestamp row = Some d -> Z.abs d <= maxTimeValue).
Proof.
  intros h raw row H. unfold transformEvent in H.
  destruct (raw_id raw) as [i |] eqn:Ei; simpl in H; [| discriminate].
  destruct (truthyStr i) eqn:Ti; simpl in H; [| discriminate].
  assert (Hty : (if truthyOpt (raw_type raw) then raw_type raw else None)
                <> Some EmptyString).
  { destruct (raw_type raw) as [[| c s] |]; simpl; discriminate. }
  destruct (truthyTs (raw_timestamp raw)) eqn:Et.
  - destruct (normalizeTimestamp h (raw_timestamp raw)) as [d |] eqn:En;
      [| discriminate].
    inversion H; subst; simpl.
    repeat split; try assumption; try discriminate.
    + intros ->. discriminate.
    + intros d' E. inversion E. subst.
      eapply normalizeTimestamp_in_range, En.
  - inversion H; subst; simpl.
    repeat split; try assumption; try discriminate.
    intros ->. discriminate.
Qed.

Lemma transformEvent_row_invariants_witness :
  raw_id epochEvent = Some "evt-0" /\
  "evt-0" <> EmptyString /\
  data (mkRow "evt-0" (Some "click") None epochEvent) = epochEvent.
Proof.
  destruct (transformEvent_row_invariants noHostParse epochEvent
              (mkRow "evt-0" (Some "click") None epochEvent) eq_refl)
    as (H1 & H2 & H3 & _).
  repeat split; assumption.
Defined.

(** X3: [transformEvents] is all or nothing.  It returns rows exactly when
    every record transforms, and then they are the records' rows in order;
    otherwise it fails with the error of the first record that does not
    transform, whatever follows it. *)
Theorem transformEvents_all_or_first_error :
  forall (h : string -> option Date) (raws : list RawEvent),
    (forall rows,
        transformEvents h raws = inl rows <->
        Forall2 (fun raw row => transformEvent h raw = inl row) raws rows) /\
    (forall good bad rest rows e,
        raws = good ++ bad :: rest ->
        transformEvents h good = inl rows ->
        transformEvent h bad = inr e ->
        transformEvents h raws = inr e).
Proof.
  intros h raws. split.
  - induction raws as [| raw raws IH]; intros rows; simpl.
    + split.
      * intros E. inversion E. constructor.
      * intros F. inversion F. reflexivity.
    + destruct (transformEvent h raw) as [row | e] eqn:Er.
      * destruct (transformEvents h raws) as [rows' | e'] eqn:Ers.
        -- split.
           ++ intros E. inversion E. subst. constructor; [exact Er |].
              apply IH. reflexivity.
           ++ intros F. inversion F as [| ? r ? rs Hr Hrs]; subst.
              rewrite Er in Hr. inversion Hr. subst.
              apply IH in Hrs. inversion Hrs. reflexivity.
        -- split; [discriminate |].
           intros F. inversion F as [| ? r ? rs Hr Hrs]; subst.
           apply IH in Hrs. discriminate.
      * split; [discriminate |].
        intros F. inversion F as [| ? r ? rs Hr Hrs]; subst.
        rewrite Er in Hr. discriminate.
  - intros good. revert raws.
    induction good as [| g good IH]; intros raws bad rest rows e -> Hg Hb.
    + simpl. rewrite Hb. reflexivity.
    + simpl in *. destruct (transformEvent h g); [| discriminate].
      destruct (transformEvents h good) as [rows' |] eqn:Eg; [| discriminate].
      rewrite (IH (good ++ bad :: rest) bad rest rows' e eq_refl eq_refl Hb).
      reflexivity.
Qed.

Lemma transformEvents_all_or_first_error_witness :
  transformEvents noHostParse [click "1"; Samples.anonymous; click "3"]
  = inr MissingId.
Proof.
  eapply (proj2 (transformEvents_all_or_first_error noHostParse
                   [click "1"; Samples.anonymous; click "3"])
            [click "1"] Samples.anonymous [click "3"]);
    reflexivity.
Defined.

End TransformerMore.
(* ================================================================== *)
(** * The checkpoint row and state *)
(* ================================================================== *)

Module CursorSpec.
Import Js Engine Fixtures.











(** X5: [toRow] fails exactly on a state whose cursor is null; on any other
    state it yields a row from which [fromRow] rebuilds that state, and
    every state [fromRow] builds can be serialized again. *)
Theorem toRow_fromRow_round_trip :
  forall (st : CursorState),
    (Cursor.toRow st = inr Cursor.CursorIsNull <-> cursor st = None) /\
    (forall row, Cursor.toRow st = inl row -> Cursor.fromRow row = st) /\
    (forall row, exists row', Cursor.toRow (Cursor.fromRow row) = inl row').
Proof.
  intros [c n]. unfold Cursor.toRow, Cursor.fromRow. simpl.
  repeat split.
  - destruct c; [discriminate | reflexivity].
  - intros ->. reflexivity.
  - intros row H. destruct c as [c |]; [| discriminate].
    inversion H. subst. reflexivity.
  - intros row. eexists. reflexivity.
Qed.

Lemma toRow_fromRow_round_trip_witness :
  exists row,
    Cursor.toRow (mkCursorState (Some "cur-final") 3) = inl row /\
    Cursor.fromRow row = mkCursorState (Some "cur-final") 3.
Proof.
  eexists. split; [reflexivity |].
  apply (proj1 (proj2 (toRow_fromRow_round_trip
                         (mkCursorState (Some "cur-final") 3)))).
  reflexivity.
Defined.

(** X6: what [saveCursor] has written is what [loadCursor] returns next:
    after a successful save of a state with a cursor, a successful load
    yields exactly that state, whichever database calls fail in between. *)
Theorem saveCursor_loadCursor_round_trip :
  forall (faulty : nat -> bool) (e e1 e2 : Env) (c : string)
         (loaded : option CursorState),
    cursor (state e) = Some c ->
    saveCursor faulty e = (Val tt, e1) ->
    loadCursor faulty e1 = (Val loaded, e2) ->
    loaded = Some (state e) /\ tables e2 = tables e1.
Proof.
  intros faulty e e1 e2 c loaded Hc Hs Hl.
  unfold saveCursor, bind, get in Hs. rewrite Hc in Hs.
  unfold poolQuery, dbCall in Hs.
  destruct (faulty (dbCalls e)); [discriminate |].
  inversion Hs. subst e1. clear Hs.
  unfold loadCursor, bind, get, ret, poolQuery, dbCall in Hl. cbn in Hl.
  destruct (faulty (S (dbCalls e))); [discriminate |].
  inversion Hl. subst. split; [| reflexivity].
  unfold Store.latestCursor. cbn.
  rewrite map_app. cbn [map]. rewrite last_last. simpl. unfold fromRow. simpl.
  destruct (state e) as [c' n]. simpl in *. subst. reflexivity.
Qed.

Lemma saveCursor_loadCursor_witness :
  Some (mkCursorState (Some "chk-pt-1") 5000)
  = Some (state (setState (mkCursorState (Some "chk-pt-1") 5000)
                   (boot emptyDb None []))) /\
  tables (snd (loadCursor healthy
                 (snd (saveCursor healthy
                         (setState (mkCursorState (Some "chk-pt-1") 5000)
                            (boot emptyDb None []))))))
  = tables (snd (saveCursor healthy
                   (setState (mkCursorState (Some "chk-pt-1") 5000)
                      (boot emptyDb None [])))).
Proof.
  apply (saveCursor_loadCursor_round_trip healthy
           (setState (mkCursorState (Some "chk-pt-1") 5000)
              (boot emptyDb None []))
           _ _ "chk-pt-1" _ eq_refl eq_refl eq_refl).
Defined.

End CursorSpec.
(* ================================================================== *)
(** * More about the fetcher *)
(* ================================================================== *)

Module FetcherMore.
Import Js Fetcher Fixtures Samples Watch.

Lemma count_before (f : Event -> bool) (evs : list Event) (c : Call) :
  count f (events (before evs c)) = (count f evs + count f (events c))%nat.
Proof. unfold count, before. simpl. rewrite filter_app, length_app. reflexivity. Qed.

Lemma attempts_count (c : Call) : attempts c = count isGet (events c).
Proof. reflexivity. Qed.

Ltac tally :=
  unfold attempts, count, before in *;
  cbn [fetchLoop events outcome unread app filter List.length isGet
       isRateLimitWarning isCursorExpiredWarning limit cursorParam] in *;
  rewrite ?filter_app, ?length_app in *;
  cbn [filter List.length isGet isRateLimitWarning isCursorExpiredWarning]
    in *.

Ltac split_ifs :=
  repeat match goal with
    | |- context [if ?b then _ else _] => destruct b eqn:?
    end.

(** X7: an answer with status 401 or 403 ends the call at once, wherever
    in the call it arrives: one request for it, no sleep, no retry; the
    stream endpoint reports an expired stream token (with a warning), the
    base endpoint an authentication error carrying the status. *)
Theorem auth_failure_is_never_retried :
  forall (ep : string) (p : Params) (c : option string) (a : Z)
         (ae : AxiosError) (rest : list HttpResult),
    statusIs ae 401 || statusIs ae 403 = true ->
    let call := fetchLoop ep p c a (reject ae :: rest) in
    attempts call = 1%nat /\
    delays call = [] /\
    unread call = rest /\
    (exists r, response ae = Some r /\
               outcome call = if String.eqb ep streamEndpoint
                              then Threw StreamTokenExpired
                              else Threw (AuthError (status r))).
Proof.
  intros ep p c a ae rest H call. subst call. unfold reject.
  cbn [fetchLoop]. rewrite H.
  assert (R : exists r, response ae = Some r).
  { unfold statusIs in H. destruct (response ae) as [r |]; [eauto | discriminate]. }
  destruct R as [r Hr]. rewrite Hr.
  destruct (String.eqb ep streamEndpoint); repeat split; exists r; split; reflexivity.
Qed.

Lemma auth_failure_is_never_retried_witness :
  let call := fetchLoop baseEndpoint (mkParams 5000 None) None 2
                (reject forbidden :: [Resolved threeRecords]) in
  attempts call = 1%nat /\ delays call = [] /\
  unread call = [Resolved threeRecords].
Proof.
  destruct (auth_failure_is_never_retried baseEndpoint (mkParams 5000 None)
              None 2 forbidden [Resolved threeRecords] eq_refl)
    as (H1 & H2 & H3 & _).
  repeat split; assumption.
Defined.

Lemma requests_of_loop (script : list HttpResult) :
  forall (ep : string) (p : Params) (c : option string) (a : Z),
    Forall (requestOf ep (limit p) (cursorParam p))
      (events (fetchLoop ep p c a script)).
Proof.
  induction script as [| r rest IH]; intros ep p c a;
    assert (G : requestOf ep (limit p) (cursorParam p) (Get ep p))
      by (repeat split; right; reflexivity).
  - cbn. constructor; [exact G | constructor].
  - destruct r as [page | [m | ae]]; cbn [fetchLoop].
    + constructor; [exact G | constructor].
    + constructor; [exact G | constructor].
    + split_ifs; unfold before; cbn [events app];
        repeat (apply Forall_cons; [first [exact G | exact I] |]);
        try apply Forall_nil; try apply IH.
      all: specialize (IH ep (mkParams (limit p) None) None a);
        cbn [limit cursorParam] in IH;
        (eapply Forall_impl; [| exact IH]);
        intros [ep' p' | w | ms]; cbn; try tauto;
        intros (E1 & E2 & [E3 | E3]); repeat split; auto.
Qed.

(** X8: every request of a call goes to the one endpoint the token
    selects and asks for the limit the caller gave; the cursor it carries is
    the caller's own cursor or none at all. *)
Theorem requests_keep_the_callers_parameters :
  forall (hasStreamToken : bool) (lim : Z) (cur : option string)
         (script : list HttpResult),
    Forall (requestOf (endpointOf hasStreamToken) lim cur)
      (events (fetchPage hasStreamToken lim cur script)).
Proof.
  intros tok lim cur script. unfold fetchPage.
  eapply Forall_impl; [| apply requests_of_loop].
  intros [ep' p' | w | ms]; cbn; try tauto.
  intros (E1 & E2 & E3). repeat split; try assumption.
  destruct (truthyOpt cur); tauto.
Qed.

Lemma attempts_bound (script : list HttpResult) :
  forall (ep : string) (p : Params) (c : option string) (a : Z),
    0 <= a <= 3 ->
    Z.of_nat (attempts (fetchLoop ep p c a script))
    <= budget c a
       + Z.of_nat (count isRateLimitWarning (events (fetchLoop ep p c a script))).
Proof.
  induction script as [| r rest IH]; intros ep p c a Ha; unfold budget.
  - tally. destruct (truthyOpt c); lia.
  - destruct r as [page | [m | ae]]; cbn [fetchLoop].
    + tally. destruct (truthyOpt c); lia.
    + tally. destruct (truthyOpt c); lia.
    + destruct (statusIs ae 401 || statusIs ae 403).
      { destruct (String.eqb ep streamEndpoint); tally;
          destruct (truthyOpt c); lia. }
      destruct (statusIs ae 400 && cursorExpiredCode ae && truthyOpt c) eqn:Ec.
      { apply andb_prop in Ec as [_ Tc]. rewrite Tc.
                specialize (IH ep (mkParams (limit p) None) None a Ha).
        unfold budget in IH. cbn [truthyOpt] in IH; tally. lia. }
      destruct (statusIs ae 429).
      {         specialize (IH ep p c a Ha).
        unfold budget in IH. cbn [truthyOpt] in IH; tally.
        destruct (truthyOpt c); lia. }
      destruct ((isNetworkError ae || isServerError ae) && (a <? maxRetries))
        eqn:Et.
      { apply andb_prop in Et as [_ Lt]. apply Z.ltb_lt in Lt.
        unfold maxRetries in Lt.
                specialize (IH ep p c (a + 1) ltac:(lia)).
        unfold budget in IH. cbn [truthyOpt] in IH; tally.
        destruct (truthyOpt c); lia. }
      tally. destruct (truthyOpt c); lia.
Qed.

(** X9: whatever the source answers, a call makes at most five requests
    (four when it was given no cursor) on top of one per rate-limited answer
    it absorbed: the retries of transient failures are never replenished, by
    a rate limit or by a cursor reset. *)
Theorem attempts_are_bounded :
  forall (hasStreamToken : bool) (lim : Z) (cur : option string)
         (script : list HttpResult),
    let call := fetchPage hasStreamToken lim cur script in
    (attempts call
     <= (if truthyOpt cur then 5 else 4)
        + count isRateLimitWarning (events call))%nat.
Proof.
  intros tok lim cur script call. subst call. unfold fetchPage.
  pose proof (attempts_bound script
                (if tok then streamEndpoint else baseEndpoint)
                (mkParams lim (if truthyOpt cur then cur else None)) cur 0
                ltac:(lia)) as B.
  unfold budget in B. destruct (truthyOpt cur); lia.
Qed.

Lemma ends_without_rate_limit (script : list HttpResult) :
  forall (ep : string) (p : Params) (c : option string) (a : Z),
    0 <= a <= 3 ->
    Forall (fun r => isRateLimited r = false) script ->
    budget c a <= Z.of_nat (List.length script) ->
    outcome (fetchLoop ep p c a script) <> Pending /\
    Z.of_nat (attempts (fetchLoop ep p c a script)) <= budget c a.
Proof.
  induction script as [| r rest IH]; intros ep p c a Ha Hrl Hlen;
    unfold budget in *.
  - cbn [List.length] in Hlen. destruct (truthyOpt c); lia.
  - inversion Hrl as [| ? ? Hr Hrest]; subst.
    cbn [List.length] in Hlen. rewrite Nat2Z.inj_succ in Hlen.
    destruct r as [page | [m | ae]]; cbn [fetchLoop].
    + tally. split; [discriminate | destruct (truthyOpt c); lia].
    + tally. split; [discriminate | destruct (truthyOpt c); lia].
    + destruct (statusIs ae 401 || statusIs ae 403).
      { destruct (String.eqb ep streamEndpoint); tally;
          (split; [discriminate | destruct (truthyOpt c); lia]). }
      destruct (statusIs ae 400 && cursorExpiredCode ae && truthyOpt c) eqn:Ec.
      { apply andb_prop in Ec as [_ Tc]. rewrite Tc in *.
        destruct (IH ep (mkParams (limit p) None) None a Ha Hrest) as [I1 I2];
          [unfold budget; cbn [truthyOpt]; lia |].
        unfold budget in I2. cbn [truthyOpt] in I2.
        split; [exact I1 |].
                tally. lia. }
      cbn in Hr. rewrite Hr.
      destruct ((isNetworkError ae || isServerError ae) && (a <? maxRetries))
        eqn:Et.
      { apply andb_prop in Et as [_ Lt]. apply Z.ltb_lt in Lt.
        unfold maxRetries in Lt.
        destruct (IH ep p c (a + 1) ltac:(lia) Hrest) as [I1 I2];
          [unfold budget; destruct (truthyOpt c); lia |].
        unfold budget in I2.
        split; [exact I1 |].
                tally. destruct (truthyOpt c); lia. }
      tally. split; [discriminate | destruct (truthyOpt c); lia].
Qed.

(** X10: against a source that never rate-limits, a call always ends:
    given five answers (four when it has no cursor) it returns a page or
    throws, after at most that many requests. *)
Theorem call_ends_without_rate_limit :
  forall (hasStreamToken : bool) (lim : Z) (cur : option string)
         (script : list HttpResult),
    Forall (fun r => isRateLimited r = false) script ->
    ((if truthyOpt cur then 5 else 4) <= List.length script)%nat ->
    let call := fetchPage hasStreamToken lim cur script in
    outcome call <> Pending /\
    (attempts call <= (if truthyOpt cur then 5 else 4))%nat.
Proof.
  intros tok lim cur script Hrl Hlen call. subst call. unfold fetchPage.
  destruct (ends_without_rate_limit script
              (if tok then streamEndpoint else baseEndpoint)
              (mkParams lim (if truthyOpt cur then cur else None)) cur 0
              ltac:(lia) Hrl) as [H1 H2].
  - unfold budget. destruct (truthyOpt cur); lia.
  - split; [exact H1 |]. unfold budget in H2. destruct (truthyOpt cur); lia.
Qed.

Lemma call_ends_without_rate_limit_witness :
  let call := fetchPage true 40000 (Some "cur-5")
                [reject internalError; reject cursorExpired;
                 reject internalError; reject internalError;
                 Resolved threeRecords] in
  outcome call <> Pending /\ (attempts call <= 5)%nat.
Proof.
  apply (call_ends_without_rate_limit true 40000 (Some "cur-5")
           [reject internalError; reject cursorExpired;
            reject internalError; reject internalError;
            Resolved threeRecords]).
  - repeat constructor.
  - simpl. lia.
Defined.

Lemma cursor_restarts (script : list HttpResult) :
  forall (ep : string) (p : Params) (c : option string) (a : Z),
    (count isCursorExpiredWarning (events (fetchLoop ep p c a script))
     <= if truthyOpt c then 1 else 0)%nat.
Proof.
  induction script as [| r rest IH]; intros ep p c a.
  - tally. lia.
  - destruct r as [page | [m | ae]]; cbn [fetchLoop]; try (tally; lia).
    destruct (statusIs ae 401 || statusIs ae 403).
    { destruct (String.eqb ep streamEndpoint); tally; lia. }
    destruct (statusIs ae 400 && cursorExpiredCode ae && truthyOpt c) eqn:Ec.
    { apply andb_prop in Ec as [_ Tc]. rewrite Tc.
            specialize (IH ep (mkParams (limit p) None) None a). cbn [truthyOpt] in IH; tally. lia. }
    destruct (statusIs ae 429).
    { specialize (IH ep p c a). tally. exact IH. }
    destruct ((isNetworkError ae || isServerError ae) && (a <? maxRetries)).
    { specialize (IH ep p c (a + 1)). tally. exact IH. }
    tally. lia.
Qed.

(** X11: a call restarts from the head of the source at most once.  It
    warns about an expired cursor at most one time, and never when it was
    given no cursor; a second cursor-expired answer in the same call (one
    that is not also a timeout) is thrown to the caller. *)
Theorem cursor_is_reset_at_most_once :
  forall (hasStreamToken : bool) (lim : Z) (cur : option string)
         (script : list HttpResult),
    (count isCursorExpiredWarning
       (events (fetchPage hasStreamToken lim cur script))
     <= if truthyOpt cur then 1 else 0)%nat /\
    (forall c ae1 ae2 rest,
        cur = Some c -> truthyStr c = true ->
        cursorRejected ae1 = true -> cursorRejected ae2 = true ->
        isNetworkError ae2 = false ->
        script = reject ae1 :: reject ae2 :: rest ->
        outcome (fetchPage hasStreamToken lim cur script)
        = Threw (Rethrown (IsAxios ae2))).
Proof.
  intros tok lim cur script. split; [apply cursor_restarts |].
  intros c ae1 ae2 rest -> Tc H1 H2 Hn ->.
  unfold fetchPage. simpl truthyOpt. rewrite Tc.
  rewrite FetcherSpec.cursor_expired_attempt by assumption.
  unfold reject. cbn [fetchLoop before outcome].
  unfold cursorRejected in H2. apply andb_prop in H2 as [S4 C4].
  assert (N : statusIs ae2 401 || statusIs ae2 403 = false /\
              statusIs ae2 429 = false /\ isServerError ae2 = false).
  { unfold statusIs, isServerError in *.
    destruct (response ae2) as [r |]; [| discriminate].
    apply Z.eqb_eq in S4. rewrite S4. repeat split. }
  destruct N as (N1 & N2 & N3).
  rewrite N1, S4, C4, N2, N3, Hn. reflexivity.
Qed.

Lemma cursor_is_reset_at_most_once_witness :
  outcome (fetchPage false 5000 (Some "cur-5")
             [reject cursorExpired; reject cursorExpired;
              Resolved threeRecords])
  = Threw (Rethrown (IsAxios cursorExpired)).
Proof.
  destruct (cursor_is_reset_at_most_once false 5000 (Some "cur-5")
              [reject cursorExpired; reject cursorExpired;
               Resolved threeRecords]) as [_ H].
  apply (H "cur-5" cursorExpired cursorExpired [Resolved threeRecords]);
    reflexivity.
Defined.

(** X12: a failure the loop has no remedy for is handed to the caller as
    it is, after the one request that met it and without a sleep: anything
    that is not an axios error, and any answer that is neither 401, 403, 429
    nor 5xx, is not a timeout, and is not a cursor expiry the call can act
    on. *)
Theorem other_failures_are_rethrown_at_once :
  forall (ep : string) (p : Params) (c : option string) (a : Z)
         (err : Rejection) (rest : list HttpResult),
    match err with
    | NotAxios _ => True
    | IsAxios ae =>
        exists r, response ae = Some r /\
                  status r < 500 /\ status r <> 401 /\ status r <> 403 /\
                  status r <> 429 /\
                  isNetworkError ae = false /\
                  (cursorRejected ae = false \/ truthyOpt c = false)
    end ->
    fetchLoop ep p c a (Rejected err :: rest)
    = mkCall [Get ep p] (Threw (Rethrown err)) rest.
Proof.
  intros ep p c a [m | ae] rest H; [reflexivity |].
  destruct H as (r & Hr & H5 & H401 & H403 & H429 & Hn & Hc).
  cbn [fetchLoop].
  assert (N : statusIs ae 401 || statusIs ae 403 = false /\
              statusIs ae 429 = false /\ isServerError ae = false).
  { unfold statusIs, isServerError. rewrite Hr.
    repeat split.
    - destruct (Z.eqb_spec (status r) 401); [lia |].
      destruct (Z.eqb_spec (status r) 403); [lia | reflexivity].
    - destruct (Z.eqb_spec (status r) 429); [lia | reflexivity].
    - destruct (Z.leb_spec 500 (status r)); [lia |].
      apply andb_false_r. }
  destruct N as (N1 & N2 & N3). rewrite N1, N2, N3, Hn.
  assert (E : statusIs ae 400 && cursorExpiredCode ae && truthyOpt c = false).
  { destruct Hc as [Hc | Hc].
    - unfold cursorRejected in Hc. rewrite Hc. reflexivity.
    - rewrite Hc. apply andb_false_r. }
  rewrite E. reflexivity.
Qed.

Lemma other_failures_are_rethrown_witness :
  fetchLoop baseEndpoint (mkParams 5000 None) None 0
    (Rejected (IsAxios notFound) :: [Resolved threeRecords])
  = mkCall [Get baseEndpoint (mkParams 5000 None)]
      (Threw (Rethrown (IsAxios notFound))) [Resolved threeRecords].
Proof.
  apply (other_failures_are_rethrown_at_once baseEndpoint (mkParams 5000 None)
           None 0 (IsAxios notFound) [Resolved threeRecords]).
  exists (mkResponse 404 None None).
  repeat split; try lia; try discriminate. left. reflexivity.
Defined.

End FetcherMore.
(* ================================================================== *)
(** * The earlier retry loop *)
(* ================================================================== *)

Module Fetcher0Spec.
Import Js Fetcher Fetcher0 Fixtures Samples.

Ltac tally0 :=
  unfold attempts0, before0 in *;
  cbn [events0 outcome0 unread0 app filter List.length] in *.

Lemma earlier_loop_bound (script : list HttpResult) :
  forall (ep : string) (p : Params) (a : Z),
    0 <= a <= 3 ->
    Z.of_nat (attempts0 (fetchLoop0 ep p a script)) <= 4 - a /\
    outcome0 (fetchLoop0 ep p a script) <> Threw0 Unreachable /\
    (4 - a <= Z.of_nat (List.length script) ->
     outcome0 (fetchLoop0 ep p a script) <> Pending0).
Proof.
  induction script as [| r rest IH]; intros ep p a Ha.
  - cbn [fetchLoop0]. destruct (Z.leb_spec a maxRetries) as [_ | Hgt];
      [| unfold maxRetries in Hgt; lia].
    tally0. repeat split; try discriminate; lia.
  - cbn [fetchLoop0]. destruct (Z.leb_spec a maxRetries) as [_ | Hgt];
      [| unfold maxRetries in Hgt; lia].
    destruct r as [page | [m | ae]];
      try (tally0; repeat split; try discriminate; lia).
    destruct (statusIs ae 401 || statusIs ae 403);
      [tally0; repeat split; try discriminate; lia |].
    destruct ((isNetworkError ae || isServerError ae || statusIs ae 429)
              && (a <? maxRetries)) eqn:Et;
      [| tally0; repeat split; try discriminate; lia].
    apply andb_prop in Et as [_ Lt]. apply Z.ltb_lt in Lt.
    unfold maxRetries in Lt.
    destruct (IH ep p (a + 1) ltac:(lia)) as (I1 & I2 & I3).
    tally0. cbn [List.length] in *.
    rewrite Nat2Z.inj_succ in *.
    repeat split; [lia | exact I2 |].
    intros Hl. apply I3. lia.
Qed.

(** X13: the earlier loop of [fetchPage], in which a rate-limited answer
    uses up a retry like any other failure, never makes more than four
    requests, whatever the source answers; it ends as soon as four answers
    are there, and its closing [throw new Error('Unreachable code')] is
    indeed never reached. *)
Theorem earlier_loop_is_bounded :
  forall (hasStreamToken : bool) (lim : Z) (cur : option string)
         (script : list HttpResult),
    let call := fetchPage0 hasStreamToken lim cur script in
    (attempts0 call <= 4)%nat /\
    outcome0 call <> Threw0 Unreachable /\
    ((4 <= List.length script)%nat -> outcome0 call <> Pending0).
Proof.
  intros tok lim cur script call. subst call. unfold fetchPage0.
  destruct (earlier_loop_bound script
              (if tok then streamEndpoint else baseEndpoint)
              (mkParams lim (if truthyOpt cur then cur else None)) 0
              ltac:(lia)) as (H1 & H2 & H3).
  repeat split; [lia | exact H2 |].
  intros Hl. apply H3. lia.
Qed.

Lemma earlier_loop_is_bounded_witness :
  outcome0 (fetchPage0 false 5000 None sourceDown) <> Pending0.
Proof.
  apply (proj2 (proj2 (earlier_loop_is_bounded false 5000 None sourceDown))).
  cbn. lia.
Defined.

(** X14: in the earlier loop a rate limit does reach the caller: four
    rate-limited answers in a row end the call with the fourth one thrown,
    after sleeps of the retry-after seconds each answer carried. *)
Theorem earlier_loop_surfaces_rate_limit :
  forall (hasStreamToken : bool) (lim : Z) (cur : option string)
         (h1 h2 h3 h4 : string) (n1 n2 n3 : Z) (rest : list HttpResult),
    truthyStr h1 = true -> truthyStr h2 = true -> truthyStr h3 = true ->
    parseInt10 h1 = JInt n1 -> parseInt10 h2 = JInt n2 ->
    parseInt10 h3 = JInt n3 ->
    let call := fetchPage0 hasStreamToken lim cur
                  (reject (tooManyRequests h1) :: reject (tooManyRequests h2)
                   :: reject (tooManyRequests h3)
                   :: reject (tooManyRequests h4) :: rest) in
    outcome0 call = Threw0 (Rethrown0 (IsAxios (tooManyRequests h4))) /\
    flat_map (fun e => match e with Delay ms => [ms] | _ => [] end)
      (events0 call)
    = [JInt (n1 * 1000); JInt (n2 * 1000); JInt (n3 * 1000)] /\
    unread0 call = rest.
Proof.
  intros tok lim cur h1 h2 h3 h4 n1 n2 n3 rest T1 T2 T3 P1 P2 P3 call.
  subst call. unfold fetchPage0, reject, tooManyRequests.
  cbn [fetchLoop0]. cbn -[parseInt10 truthyStr Z.mul].
  unfold retryDelay, retryAfterGiven, statusIs.
  cbn -[parseInt10 truthyStr Z.mul].
  rewrite T1, T2, T3, P1, P2, P3. repeat split.
Qed.

Lemma earlier_loop_surfaces_rate_limit_witness :
  outcome0 (fetchPage0 false 5000 None
              [reject (tooManyRequests "28"); reject (tooManyRequests "28");
               reject (tooManyRequests "28"); reject (tooManyRequests "28")])
  = Threw0 (Rethrown0 (IsAxios (tooManyRequests "28"))).
Proof.
  apply (earlier_loop_surfaces_rate_limit false 5000 None
           "28" "28" "28" "28" 28 28 28 []); reflexivity.
Defined.

End Fetcher0Spec.
(* ================================================================== *)
(** * More about the writer *)
(* ================================================================== *)

Module WriterSpec.
Import Js Transformer Store Engine Fixtures StoreSpec EngineSpec.

Lemma setBuffer_same (e : Env) : setBuffer (buffer e) e = e.
Proof. destruct e. reflexivity. Qed.

(** X15: while the rows handed over do not fill the buffer up to the
    batch size, [add] only appends them to the buffer: it makes no database
    call and cannot fail, whatever state the database is in. *)
Theorem add_below_threshold_only_buffers :
  forall (faulty : nat -> bool) (batchSize : Z) (rows : list TransformedRow)
         (e : Env),
    Z.of_nat (List.length (buffer e) + List.length rows) < batchSize ->
    add faulty batchSize rows e = (Val tt, setBuffer (buffer e ++ rows) e).
Proof.
  intros faulty bs rows. induction rows as [| row rest IH]; intros e H.
  - cbn [add]. unfold ret. rewrite app_nil_r, setBuffer_same. reflexivity.
  - rewrite add_cons. cbv zeta.
    set (e1 := setBuffer (buffer e ++ [row]) e).
    assert (L : List.length (buffer e1) = S (List.length (buffer e))).
    { subst e1. simpl. rewrite length_app. simpl. lia. }
    cbn [List.length] in H.
    destruct (Z.geb_spec (Z.of_nat (List.length (buffer e1))) bs) as [G | G];
      [rewrite L in G; lia |].
    rewrite IH by (rewrite L; lia).
    subst e1. simpl. rewrite <- app_assoc. reflexivity.
Qed.

Lemma add_below_threshold_witness :
  add (failsAt 0) 5000 sampleRows (boot emptyDb None [])
  = (Val tt, setBuffer ([] ++ sampleRows) (boot emptyDb None [])).
Proof.
  apply (add_below_threshold_only_buffers (failsAt 0) 5000 sampleRows
           (boot emptyDb None [])).
  simpl. lia.
Defined.

(** X16: back-pressure.  With a batch size of at least one, [add] never
    returns, normally or with an error, with a buffer that has reached the
    batch size, and never with a transaction still open: the memory held by
    the writer is bounded by one batch. *)
Theorem add_keeps_buffer_below_batch_size :
  forall (faulty : nat -> bool) (batchSize : Z) (rows : list TransformedRow)
         (e : Env),
    1 <= batchSize ->
    session e = None ->
    Z.of_nat (List.length (buffer e)) < batchSize ->
    let e' := snd (add faulty batchSize rows e) in
    Z.of_nat (List.length (buffer e')) < batchSize /\ session e' = None.
Proof.
  intros faulty bs rows. induction rows as [| row rest IH];
    intros e Hbs Hs Hb; cbv zeta.
  - cbn. split; assumption.
  - rewrite add_cons. cbv zeta.
    set (e1 := setBuffer (buffer e ++ [row]) e).
    destruct (Z.geb_spec (Z.of_nat (List.length (buffer e1))) bs) as [G | G].
    + pose proof (flush_effect faulty e1 Hs) as F. cbv zeta in F.
      destruct (flush faulty e1) as [[u | x |] e2]; cbn [fst snd] in F;
        destruct F as (Fb & Fs & _).
      * apply IH; try assumption. rewrite Fb. simpl. lia.
      * cbn [snd]. rewrite Fb. simpl. split; [lia | exact Fs].
      * cbn [snd]. rewrite Fb. simpl. split; [lia | exact Fs].
    + apply IH; assumption.
Qed.

Lemma add_keeps_buffer_below_batch_size_witness :
  let e' := snd (add (failsAt 3) 2 sampleRows (boot emptyDb None [])) in
  Z.of_nat (List.length (buffer e')) < 2 /\ session e' = None.
Proof.
  apply (add_keeps_buffer_below_batch_size (failsAt 3) 2 sampleRows
           (boot emptyDb None [])); [lia | reflexivity | simpl; lia].
Defined.

(** X17: on a database that does not fail, what [add] followed by [flush]
    leaves in the tables does not depend on the batch size: however the rows
    are cut into transactions, the destination is the one merge of the
    buffered rows and the new ones, and the staging table is empty. *)
Theorem batch_size_does_not_change_the_result :
  forall (size1 size2 : Z) (rows : list TransformedRow) (e : Env),
    session e = None ->
    staging_events (tables e) = [] ->
    tables (snd (addAndFlush healthy size1 rows e))
    = tables (snd (addAndFlush healthy size2 rows e)) /\
    tables (snd (addAndFlush healthy size1 rows e))
    = mkTables [] (mergeRows (ingested_events (tables e)) (buffer e ++ rows))
        (cursor_state (tables e)).
Proof.
  intros s1 s2 rows e Hs Hst.
  pose proof (addAndFlush_healthy s1 rows e Hs Hst) as A.
  pose proof (addAndFlush_healthy s2 rows e Hs Hst) as B.
  cbv zeta in A, B.
  destruct A as (_ & _ & _ & A & _). destruct B as (_ & _ & _ & B & _).
  split; congruence.
Qed.

Lemma batch_size_does_not_change_witness :
  tables (snd (addAndFlush healthy 1 sampleRows (boot emptyDb None [])))
  = tables (snd (addAndFlush healthy 5000 sampleRows (boot emptyDb None []))).
Proof.
  apply (batch_size_does_not_change_the_result 1 5000 sampleRows
           (boot emptyDb None [])); reflexivity.
Defined.

End WriterSpec.
(* ================================================================== *)
(** * What every run keeps *)
(* ================================================================== *)

Module RunSpec.
Import Js Transformer Store Engine Fixtures Samples Watch StoreSpec EngineSpec.

Section Keeping.

Variable faulty : nat -> bool.
Variable hostParse : string -> option Date.
Variable isStreamMode : bool.
Variable batchSize : Z.
Variable limit : Z.
Variable J : Frame.
Hypothesis stable : Stable isStreamMode limit J.

Local Abbreviation Safe := (Preserves (holds J)).

Lemma safe_flush : Safe (flush faulty).
Proof.
  intros e [Hs HJ]. pose proof (flush_effect faulty e Hs) as F. cbv zeta in F.
  destruct (flush faulty e) as [r e']. cbn [fst snd] in *.
  destruct F as (Fb & Fs & Fst & _ & Fh & Ftr & Ft).
  split; [exact Fs |]. rewrite Fb, Fst, Fh, Ftr.
  destruct Ft as [[_ Ft] | (n & _ & Ft)]; rewrite Ft.
  - destruct (buffer e) as [| row b] eqn:Eb.
    + exact HJ.
    + apply (stable_commit _ _ _ stable). exact HJ.
  - apply (stable_drop _ _ _ stable) with (b := buffer e). exact HJ.
Qed.

Lemma safe_add (rows : list TransformedRow) : Safe (add faulty batchSize rows).
Proof.
  induction rows as [| row rest IH]; [apply preserves_ret |].
  cbn [add]. apply preserves_bind.
  - apply preserves_modify. intros e [Hs HJ]. split; [exact Hs |].
    apply (stable_push _ _ _ stable). exact HJ.
  - intros _. apply preserves_bind; [| intros _; exact IH].
    apply preserves_bind; [apply preserves_get | intros e0].
    apply preserves_if; [apply safe_flush | apply preserves_ret].
Qed.

Lemma safe_saveCursor : Safe (saveCursor faulty).
Proof.
  intros e [Hs HJ]. unfold saveCursor, bind, get.
  destruct (cursor (state e)) as [c |] eqn:Ec; [| split; assumption].
  unfold poolQuery, dbCall.
  destruct (faulty (dbCalls e)); (split; [exact Hs |]); [exact HJ |].
  apply (stable_save _ _ _ stable); assumption.
Qed.

Lemma safe_goOn (hasMore : bool) : Safe (goOn hasMore).
Proof.
  intros e H. unfold goOn, bind, shouldStop, ret.
  destruct hasMore; [| exact H].
  destruct (stopIn e) as [[| k] |]; exact H.
Qed.

Lemma safe_startFetch (c : option string) :
  Safe (startFetch isStreamMode limit c).
Proof.
  intros e [Hs HJ]. split; [exact Hs |].
  apply (stable_fetch _ _ _ stable). exact HJ.
Qed.

Lemma safe_await (p : Fetcher.Outcome) : Safe (await p).
Proof.
  destruct p; [apply preserves_ret | apply preserves_throw | apply preserves_hang].
Qed.

Lemma safe_processPage (page : Fetcher.FetchPageResult) :
  Safe (processPage faulty hostParse batchSize limit page).
Proof.
  unfold processPage. destruct (Fetcher.data page); [apply preserves_ret |].
  apply preserves_bind.
  - unfold transformAll. destruct (transformEvents hostParse _);
      [apply preserves_ret | apply preserves_throw].
  - intros rows. apply preserves_bind; [apply safe_add | intros _].
    apply preserves_bind.
    + apply preserves_modify. intros e [Hs HJ]. split; [exact Hs |].
      apply (stable_update _ _ _ stable). exact HJ.
    + intros _. apply preserves_bind; [apply preserves_get | intros e0].
      apply preserves_if; [apply safe_saveCursor | apply preserves_ret].
Qed.

Lemma safe_standardLoop (fuel : nat) :
  forall (hasMore : bool),
    Safe (standardLoop faulty hostParse isStreamMode batchSize fuel limit hasMore).
Proof.
  induction fuel as [| fuel IH]; intros hasMore; [apply preserves_hang |].
  cbn [standardLoop].
  apply preserves_bind; [apply safe_goOn | intros continue].
  destruct continue; [| apply preserves_ret].
  apply preserves_bind; [apply preserves_get | intros e0].
  apply preserves_bind; [apply safe_startFetch | intros promise].
  apply preserves_bind; [apply safe_await | intros page].
  apply preserves_bind; [apply safe_processPage | intros _].
  apply preserves_bind; [apply safe_goOn | intros _].
  apply IH.
Qed.

Lemma safe_overlapLoop (fuel : nat) :
  forall (hasMore : bool) (pendingFetch : Fetcher.Outcome),
    Safe (overlapLoop faulty hostParse isStreamMode batchSize fuel limit
            hasMore pendingFetch).
Proof.
  induction fuel as [| fuel IH]; intros hasMore pendingFetch;
    [apply preserves_hang |].
  cbn [overlapLoop].
  apply preserves_bind; [apply safe_goOn | intros continue].
  destruct continue; [| apply preserves_ret].
  apply preserves_bind; [apply safe_await | intros page].
  apply preserves_bind; [apply safe_goOn | intros next].
  apply preserves_bind.
  - apply preserves_if; [apply safe_startFetch | apply preserves_ret].
  - intros pending'.
    apply preserves_bind; [apply safe_processPage | intros _].
    apply IH.
Qed.

(** The drain sequences of [run]. *)
Lemma safe_drain : Safe (close faulty ;; saveCursor faulty).
Proof.
  apply preserves_bind; [apply safe_flush | intros _]. apply safe_saveCursor.
Qed.

Lemma safe_handler (x : Exn) :
  Safe (close faulty ;; saveCursor faulty ;; @throw unit x).
Proof.
  apply preserves_bind; [apply safe_flush | intros _].
  apply preserves_bind; [apply safe_saveCursor | intros _].
  apply preserves_throw.
Qed.

Lemma safe_run_body (fuel : nat) (c : option string) :
  Safe (tryCatch
          (if isStreamMode
           then bind (startFetch isStreamMode limit c)
                  (overlapLoop faulty hostParse isStreamMode batchSize fuel
                     limit true)
           else standardLoop faulty hostParse isStreamMode batchSize fuel
                  limit true)
          (fun err => close faulty ;; saveCursor faulty ;; throw err) ;;
        close faulty ;; saveCursor faulty).
Proof.
  apply preserves_bind; [| intros _; apply safe_drain].
  apply preserves_tryCatch; [| apply safe_handler].
  apply preserves_if.
  - apply preserves_bind; [apply safe_startFetch |].
    intros p. apply safe_overlapLoop.
  - apply safe_standardLoop.
Qed.

End Keeping.

(** [run], once the checkpoint has been read. *)
Lemma run_after_load (faulty : nat -> bool) (h : string -> option Date)
  (isStreamMode : bool) (batchSize : Z) (t : Tables) (stop : option nat)
  (answers : list Fetcher.HttpResult) :
  faulty O = false ->
  let e0 := mkEnv t None 1 [] (resumeState t) stop answers [] in
  run faulty h isStreamMode batchSize (boot t stop answers)
  = (tryCatch
       (if isStreamMode
        then bind (startFetch isStreamMode (limitOf isStreamMode)
                     (cursor (resumeState t)))
               (overlapLoop faulty h isStreamMode batchSize
                  (S (List.length answers)) (limitOf isStreamMode) true)
        else standardLoop faulty h isStreamMode batchSize
               (S (List.length answers)) (limitOf isStreamMode) true)
       (fun err => close faulty ;; saveCursor faulty ;; throw err) ;;
     close faulty ;; saveCursor faulty) e0.
Proof.
  intros Hf e0. subst e0.
  unfold run, loadCursor, poolQuery.
  unfold bind at 1. unfold bind at 1. unfold dbCall at 1.
  cbn [boot dbCalls]. rewrite Hf.
  unfold resumeState, limitOf.
  cbv beta iota delta [get ret bind modify boot tick setTables setState
                       tables state http session dbCalls buffer stopIn trace].
  destruct (latestCursor t); reflexivity.
Qed.

Lemma run_load_failed (faulty : nat -> bool) (h : string -> option Date)
  (isStreamMode : bool) (batchSize : Z) (t : Tables) (stop : option nat)
  (answers : list Fetcher.HttpResult) :
  faulty O = true ->
  run faulty h isStreamMode batchSize (boot t stop answers)
  = (Throw (DbFailed 0), tick (boot t stop answers)).
Proof.
  intros Hf. unfold run, loadCursor, poolQuery.
  unfold bind at 1. unfold bind at 1. unfold dbCall at 1.
  cbn [boot dbCalls]. rewrite Hf. reflexivity.
Qed.

(** A stable frame that holds when the checkpoint has been read holds when
    the run is over. *)
Lemma run_keeps (faulty : nat -> bool) (h : string -> option Date)
  (isStreamMode : bool) (batchSize : Z) (t : Tables) (stop : option nat)
  (answers : list Fetcher.HttpResult) (J : Frame) :
  Stable isStreamMode (limitOf isStreamMode) J ->
  faulty O = false ->
  J t [] (resumeState t) answers [] ->
  holds J (snd (run faulty h isStreamMode batchSize (boot t stop answers))).
Proof.
  intros St Hf H0. rewrite run_after_load by exact Hf. cbv zeta.
  apply (safe_run_body faulty h isStreamMode batchSize
           (limitOf isStreamMode) J St).
  split; [reflexivity | exact H0].
Qed.

Lemma mergeRows_extends (s d : list TransformedRow) :
  exists more, mergeRows d s = d ++ more.
Proof.
  revert d. induction s as [| r s IH]; intros d.
  - exists []. simpl. rewrite app_nil_r. reflexivity.
  - simpl. unfold insertOrSkip. destruct (hasId (id r) d).
    + apply IH.
    + destruct (IH (d ++ [r])) as [more E]. exists (r :: more).
      change (fold_left insertOrSkip s (d ++ [r])) with (mergeRows (d ++ [r]) s).
      rewrite E, <- app_assoc. reflexivity.
Qed.

Lemma stable_keyed (isStreamMode : bool) (limit : Z) :
  Stable isStreamMode limit keyed.
Proof.
  constructor; unfold keyed; try (intros; assumption).
  intros t b st h tr [Hst Hnd]. split; [reflexivity |].
  cbn. apply NoDup_mergeRows. exact Hnd.
Qed.

(** X18: however a run goes (any answers of the source, any failing
    database calls, any moment of the stop signal, either pacing mode), it
    leaves no transaction open, leaves the staging table empty, and leaves
    the destination with one row per identifier, provided it found them
    so. *)
Theorem run_keeps_destination_keyed :
  forall (faulty : nat -> bool) (h : string -> option Date)
         (isStreamMode : bool) (batchSize : Z) (t : Tables)
         (stop : option nat) (answers : list Fetcher.HttpResult),
    staging_events t = [] ->
    NoDup (ids (ingested_events t)) ->
    let e' := snd (run faulty h isStreamMode batchSize (boot t stop answers)) in
    session e' = None /\
    staging_events (tables e') = [] /\
    NoDup (ids (ingested_events (tables e'))).
Proof.
  intros faulty h mode bs t stop answers Hst Hnd e'. subst e'.
  destruct (faulty O) eqn:Hf.
  - rewrite run_load_failed by exact Hf. cbn. auto.
  - destruct (run_keeps faulty h mode bs t stop answers keyed
                (stable_keyed _ _) Hf (conj Hst Hnd)) as (Hs & H1 & H2).
    auto.
Qed.

Lemma run_keeps_destination_keyed_witness :
  let e' := snd (run (failsAt 7) noHostParse true 2
                   (boot emptyDb (Some 3%nat)
                      [Fetcher.Resolved threeRecords])) in
  session e' = None /\
  staging_events (tables e') = [] /\
  NoDup (ids (ingested_events (tables e'))).
Proof.
  apply (run_keeps_destination_keyed (failsAt 7) noHostParse true 2 emptyDb
           (Some 3%nat) [Fetcher.Resolved threeRecords]).
  - reflexivity.
  - constructor.
Defined.

Lemma stable_grownFrom (isStreamMode : bool) (limit : Z) (t0 : Tables) :
  Stable isStreamMode limit (grownFrom t0).
Proof.
  constructor; unfold grownFrom; try (intros; assumption).
  - intros t b st h tr [[m1 H1] H2]. split; [| exact H2].
    cbn [truncateStaging upsertQuery stagingQuery ingested_events
         staging_events cursor_state].
    destruct (mergeRows_extends (staging_events t ++ b)
                     (ingested_events t)) as [more E].
    exists (m1 ++ more). rewrite E, H1, <- app_assoc. reflexivity.
  - intros t b st h tr c [H1 [m2 H2]] _. split; [exact H1 |].
    cbn [insertCursor ingested_events staging_events cursor_state]. eexists. rewrite H2, <- app_assoc. reflexivity.
Qed.

(** X19: a run only ever appends.  Whatever happens, the rows the
    destination held and the checkpoints the checkpoint table held when the
    run started are still there at the end, unchanged and in their place;
    anything new comes after them. *)
Theorem run_only_appends :
  forall (faulty : nat -> bool) (h : string -> option Date)
         (isStreamMode : bool) (batchSize : Z) (t : Tables)
         (stop : option nat) (answers : list Fetcher.HttpResult),
    let e' := snd (run faulty h isStreamMode batchSize (boot t stop answers)) in
    (exists more,
        ingested_events (tables e') = ingested_events t ++ more) /\
    (exists more, cursor_state (tables e') = cursor_state t ++ more).
Proof.
  intros faulty h mode bs t stop answers e'. subst e'.
  destruct (faulty O) eqn:Hf.
  - rewrite run_load_failed by exact Hf. cbn.
    split; exists []; rewrite app_nil_r; reflexivity.
  - destruct (run_keeps faulty h mode bs t stop answers (grownFrom t)
                (stable_grownFrom _ _ t) Hf) as (_ & H1 & H2); [| auto].
    split; exists []; rewrite app_nil_r; reflexivity.
Qed.

Lemma sorted_snoc (l : list Z) (n : Z) :
  StronglySorted Z.le l -> Forall (fun x => x <= n) l ->
  StronglySorted Z.le (l ++ [n]).
Proof.
  induction 1 as [| x l Hs IH Hx]; intros F; simpl.
  - constructor; constructor.
  - inversion F; subst. constructor; [apply IH; assumption |].
    apply Forall_app. split; [exact Hx |]. constructor; [assumption | constructor].
Qed.

Lemma stable_countsUp (isStreamMode : bool) (limit : Z) (t0 : Tables) (n0 : Z) :
  Stable isStreamMode limit (countsUp t0 n0).
Proof.
  constructor; unfold countsUp; try (intros; assumption).
  - intros t b st h tr c (Hn & more & E & S & F) Hc. split; [exact Hn |].
    exists (more ++ [Store.mkCursorRow c (eventsIngested st)]).
    cbn. repeat split.
    + rewrite E, <- app_assoc. reflexivity.
    + rewrite map_app. cbn [map Store.events_ingested].
      change (n0 :: map Store.events_ingested more ++ [eventsIngested st])
        with ((n0 :: map Store.events_ingested more) ++ [eventsIngested st]).
      apply sorted_snoc; [exact S |].
      constructor; [exact Hn |].
      apply Forall_map. exact F.
    + apply Forall_app. split; [exact F |].
      constructor; [cbn; lia | constructor].
  - intros t b st h tr nc k (Hn & more & E & S & F).
    cbn [update eventsIngested]. split; [lia |].
    exists more. repeat split; try assumption.
    eapply Forall_impl; [| exact F]. cbn. intros row Hr. lia.
Qed.

(** X20: checkpoints count upwards.  The checkpoint rows a run appends
    carry counts that never decrease from one row to the next, start at or
    above the count of the checkpoint the run resumed from (zero on a fresh
    start), and never exceed the count the run has reached in memory. *)
Theorem checkpoints_count_upwards :
  forall (faulty : nat -> bool) (h : string -> option Date)
         (isStreamMode : bool) (batchSize : Z) (t : Tables)
         (stop : option nat) (answers : list Fetcher.HttpResult),
    let e' := snd (run faulty h isStreamMode batchSize (boot t stop answers)) in
    exists more,
      cursor_state (tables e') = cursor_state t ++ more /\
      StronglySorted Z.le
        (eventsIngested (resumeState t) :: map Store.events_ingested more) /\
      (faulty O = false ->
       Forall (fun row => Store.events_ingested row <= eventsIngested (state e'))
         more).
Proof.
  intros faulty h mode bs t stop answers e'. subst e'.
  destruct (faulty O) eqn:Hf.
  - rewrite run_load_failed by exact Hf. exists []. cbn.
    rewrite app_nil_r. repeat split; [| discriminate].
    constructor; constructor.
  - destruct (run_keeps faulty h mode bs t stop answers
                (countsUp t (eventsIngested (resumeState t)))
                (stable_countsUp _ _ t _) Hf)
      as (_ & _ & more & E & S & F).
    + split; [lia |]. exists []. rewrite app_nil_r.
      repeat split; repeat constructor.
    + exists more. auto.
Qed.

Lemma checkpoints_count_upwards_witness :
  let e' := snd (run healthy noHostParse false 5000
                   (boot emptyDb None [Fetcher.Resolved threeRecords])) in
  exists more,
    cursor_state (tables e') = cursor_state emptyDb ++ more /\
    Forall (fun row => Store.events_ingested row <= eventsIngested (state e'))
      more.
Proof.
  destruct (checkpoints_count_upwards healthy noHostParse false 5000 emptyDb
              None [Fetcher.Resolved threeRecords]) as (more & H1 & _ & H3).
  exists more. split; [exact H1 | apply H3; reflexivity].
Defined.

Lemma stable_allTo (isStreamMode : bool) :
  Stable isStreamMode (limitOf isStreamMode)
    (allTo (endpointOf isStreamMode) (limitOf isStreamMode)).
Proof.
  constructor; unfold allTo; try (intros; assumption).
  intros t b st h tr c H. apply Forall_app. split; [exact H |].
  eapply Forall_impl;
    [| apply (FetcherMore.requests_of_loop h
                (if isStreamMode then Fetcher.streamEndpoint
                 else Fetcher.baseEndpoint)
                (Fetcher.mkParams (limitOf isStreamMode)
                   (if truthyOpt c then c else None)) c 0)].
  intros [ep p | w | ms]; cbn; tauto.
Qed.

(** X21: a run talks to one endpoint only.  Every request it sends, on
    any path, goes to the stream endpoint with a limit of 40000 in stream
    mode and to the base endpoint with a limit of 5000 otherwise. *)
Theorem run_requests_one_endpoint :
  forall (faulty : nat -> bool) (h : string -> option Date)
         (isStreamMode : bool) (batchSize : Z) (t : Tables)
         (stop : option nat) (answers : list Fetcher.HttpResult),
    Forall (requestTo (endpointOf isStreamMode) (limitOf isStreamMode))
      (trace (snd (run faulty h isStreamMode batchSize (boot t stop answers)))).
Proof.
  intros faulty h mode bs t stop answers.
  destruct (faulty O) eqn:Hf.
  - rewrite run_load_failed by exact Hf. constructor.
  - destruct (run_keeps faulty h mode bs t stop answers _
                (stable_allTo mode) Hf) as [_ H]; [constructor | exact H].
Qed.







Lemma fetchPage_first_event (isStreamMode : bool) (lim : Z)
  (c : option string) (script : list Fetcher.HttpResult) :
  exists rest,
    Fetcher.events (Fetcher.fetchPage isStreamMode lim c script)
    = Fetcher.Get (endpointOf isStreamMode)
        (Fetcher.mkParams lim (if truthyOpt c then c else None)) :: rest.
Proof.
  unfold Fetcher.fetchPage, endpointOf.
  destruct script as [| [page | [m | ae]] rest]; cbn [Fetcher.fetchLoop];
    repeat match goal with
      | |- context [if ?b then _ else _] =>
          lazymatch b with
          | isStreamMode => fail
          | truthyOpt c => fail
          | _ => destruct b
          end
      end;
    eexists; reflexivity.
Qed.

Lemma stable_startsWith (isStreamMode : bool) (limit : Z)
  (first : Fetcher.Event) :
  Stable isStreamMode limit (startsWith first).
Proof.
  constructor; unfold startsWith; try (intros; assumption).
  intros t b st h tr c [rest E]. exists (rest ++ Fetcher.events
                                           (Fetcher.fetchPage isStreamMode limit c h)).
  rewrite E. reflexivity.
Qed.

(** X23: resume.  Once the checkpoint has been read, and unless a
    standard-mode run is stopped before its first turn, the first request of
    a run asks for the page at the cursor of the newest checkpoint row (for
    the first page when there is none), at the endpoint and with the limit of
    its mode; everything else the run sends comes after it. *)
Theorem first_request_resumes_from_checkpoint :
  forall (faulty : nat -> bool) (h : string -> option Date)
         (isStreamMode : bool) (batchSize : Z) (t : Tables)
         (stop : option nat) (answers : list Fetcher.HttpResult),
    faulty O = false ->
    isStreamMode = true \/ stop <> Some O ->
    exists rest,
      trace (snd (run faulty h isStreamMode batchSize (boot t stop answers)))
      = firstRequest isStreamMode (cursor (resumeState t)) :: rest.
Proof.
  intros faulty h mode bs t stop answers Hf Hgo.
  rewrite run_after_load by exact Hf. cbv zeta.
  set (c := cursor (resumeState t)).
  set (first := firstRequest mode c).
  pose proof (stable_startsWith mode (limitOf mode) first) as St.
  destruct (fetchPage_first_event mode (limitOf mode) c answers) as [evs Ev].
  fold first in Ev. unfold firstRequest in first. fold first in Ev.
  destruct mode.
  - set (e0 := mkEnv t None 1 [] (resumeState t) stop answers []).
    set (call := Fetcher.fetchPage true (limitOf true) c answers) in *.
    set (e1 := setHttp (Fetcher.unread call) (Fetcher.events call) e0).
    assert (H1 : holds (startsWith first) e1).
    { split; [reflexivity |]. exists evs. subst e1. cbn. exact Ev. }
    change (exists rest,
               trace (snd ((tryCatch
                              (overlapLoop faulty h true bs
                                 (S (List.length answers)) (limitOf true) true
                                 (Fetcher.outcome call))
                              (fun err => close faulty ;; saveCursor faulty ;;
                                          throw err) ;;
                            close faulty ;; saveCursor faulty) e1))
               = first :: rest).
    apply (preserves_bind (holds (startsWith first))); [| | exact H1].
    + apply preserves_tryCatch.
      * apply (safe_overlapLoop faulty h true bs _ _ St).
      * intros x. apply (safe_handler faulty _ _ _ St).
    + intros _. apply (safe_drain faulty _ _ _ St).
  - destruct Hgo as [Hgo | Hgo]; [discriminate |].
    set (stop' := match stop with Some (S k) => Some k | other => other end).
    set (e0 := mkEnv t None 1 [] (resumeState t) stop' answers []).
    set (call := Fetcher.fetchPage false (limitOf false) c answers) in *.
    set (e1 := setHttp (Fetcher.unread call) (Fetcher.events call) e0).
    assert (H1 : holds (startsWith first) e1).
    { split; [reflexivity |]. exists evs. subst e1. cbn. exact Ev. }
    assert (E : forall (handler : Exn -> M unit) (fin : M unit),
               (tryCatch (standardLoop faulty h false bs
                            (S (List.length answers)) (limitOf false) true)
                  handler ;; fin)
                 (mkEnv t None 1 [] (resumeState t) stop answers [])
               = (tryCatch
                    (let* page := await (Fetcher.outcome call) in
                     processPage faulty h bs (limitOf false) page ;;
                     goOn (Fetcher.hasMore page) ;;
                     standardLoop faulty h false bs (List.length answers)
                       (limitOf false) (Fetcher.hasMore page))
                    handler ;; fin) e1).
    { intros handler fin. subst e1 e0 stop' call c.
      destruct stop as [[| k] |]; [congruence | reflexivity | reflexivity]. }
    rewrite E.
    apply (preserves_bind (holds (startsWith first))); [| | exact H1].
    + apply preserves_tryCatch.
      * apply preserves_bind; [apply safe_await | intros page].
        apply preserves_bind;
          [apply (safe_processPage faulty h false bs _ _ St) | intros _].
        apply preserves_bind; [apply safe_goOn | intros _].
        apply (safe_standardLoop faulty h false bs _ _ St).
      * intros x. apply (safe_handler faulty _ _ _ St).
    + intros _. apply (safe_drain faulty _ _ _ St).
Qed.

Lemma first_request_resumes_witness :
  exists rest,
    trace (snd (run healthy noHostParse false 5000
                  (boot (mkTables [] [] [Store.mkCursorRow "cur-crash-pt" 1000])
                     None [Fetcher.reject forbidden])))
    = Fetcher.Get Fetcher.baseEndpoint
        (Fetcher.mkParams 5000 (Some "cur-crash-pt")) :: rest.
Proof.
  apply (first_request_resumes_from_checkpoint healthy noHostParse false 5000
           (mkTables [] [] [Store.mkCursorRow "cur-crash-pt" 1000])
           None [Fetcher.reject forbidden]).
  - reflexivity.
  - right. discriminate.
Defined.



(** ** A run over a source and a database that work *)

Lemma goOn_unstopped (b : bool) (e : Env) :
  stopIn e = None -> goOn b e = (Val b, e).
Proof.
  intros H. destruct b; [| reflexivity].
  unfold goOn, bind, shouldStop, ret. rewrite H. reflexivity.
Qed.

Lemma standard_turn (faulty : nat -> bool) (h : string -> option Date)
  (batchSize : Z) (fuel : nat) (limit : Z) (p : Fetcher.FetchPageResult)
  (more : list Fetcher.HttpResult) (e : Env) :
  http e = Fetcher.Resolved p :: more ->
  stopIn e = None ->
  standardLoop faulty h false batchSize (S fuel) limit true e
  = (processPage faulty h batchSize limit p ;;
     goOn (Fetcher.hasMore p) ;;
     standardLoop faulty h false batchSize fuel limit (Fetcher.hasMore p))
      (setHttp more
         [Fetcher.Get Fetcher.baseEndpoint
            (Fetcher.mkParams limit
               (if truthyOpt (cursor (state e)) then cursor (state e)
                else None))] e).
Proof.
  intros Hh Hs. destruct e as [tb ses n b st stp ht tr].
  cbn in Hh, Hs. subst. reflexivity.
Qed.

Lemma overlap_turn_more (faulty : nat -> bool) (h : string -> option Date)
  (batchSize : Z) (fuel : nat) (limit : Z) (p p' : Fetcher.FetchPageResult)
  (more : list Fetcher.HttpResult) (e : Env) :
  Fetcher.hasMore p = true ->
  http e = Fetcher.Resolved p' :: more ->
  stopIn e = None ->
  overlapLoop faulty h true batchSize (S fuel) limit true (Fetcher.Returned p) e
  = (processPage faulty h batchSize limit p ;;
     overlapLoop faulty h true batchSize fuel limit true (Fetcher.Returned p'))
      (setHttp more
         [Fetcher.Get Fetcher.streamEndpoint
            (Fetcher.mkParams limit
               (if truthyStr (Fetcher.nextCursor p)
                then Some (Fetcher.nextCursor p) else None))] e).
Proof.
  intros Hm Hh Hs. destruct e as [tb ses n b st stp ht tr].
  destruct p as [d hm nc]. cbn in Hm, Hh, Hs. subst. reflexivity.
Qed.

Lemma overlap_turn_last (faulty : nat -> bool) (h : string -> option Date)
  (batchSize : Z) (fuel : nat) (limit : Z) (p : Fetcher.FetchPageResult)
  (e : Env) :
  Fetcher.hasMore p = false ->
  stopIn e = None ->
  overlapLoop faulty h true batchSize (S (S fuel)) limit true
    (Fetcher.Returned p) e
  = processPage faulty h batchSize limit p e.
Proof.
  intros Hm Hs. destruct e as [tb ses n b st stp ht tr].
  destruct p as [d hm nc]. cbn in Hm, Hs. subst.
  cbn [overlapLoop]. unfold bind, goOn, shouldStop, ret, await. cbn.
  destruct (processPage _ _ _ _ _ _) as [[[] | x |] e']; reflexivity.
Qed.


Lemma last_cons_any {A} (l : list A) (x d d' : A) :
  last (x :: l) d = last (x :: l) d'.
Proof.
  revert x. induction l as [| y l IH]; intros x; [reflexivity |].
  change (last (y :: l) d = last (y :: l) d'). apply IH.
Qed.

Lemma lastCursor_cons (c : option string) (p : Fetcher.FetchPageResult)
  (rest : list Fetcher.FetchPageResult) :
  lastCursor c (p :: rest) = lastCursor (Some (Fetcher.nextCursor p)) rest.
Proof.
  unfold lastCursor. destruct rest as [| q rest]; [reflexivity |].
  cbn [map]. change (last (Some (Fetcher.nextCursor p) :: ?l) c)
    with (last l c).
  apply last_cons_any.
Qed.

Lemma lastCursor_some (pages : list Fetcher.FetchPageResult) :
  forall c, pages <> [] -> exists c', lastCursor c pages = Some c'.
Proof.
  induction pages as [| p rest IH]; intros c H; [congruence |].
  rewrite lastCursor_cons. destruct rest as [| q rest].
  - eexists. reflexivity.
  - apply IH. discriminate.
Qed.

Section Working.

Variable h : string -> option Date.
Variable batchSize : Z.

Lemma standard_walk (pages : list Fetcher.FetchPageResult) :
  forall (rowss : list (list TransformedRow)) (e : Env) (fuel : nat),
    lastOnly pages ->
    transformInto h pages rowss ->
    http e = map Fetcher.Resolved pages ->
    stopIn e = None ->
    session e = None ->
    staging_events (tables e) = [] ->
    (List.length pages < fuel)%nat ->
    exists e',
      standardLoop healthy h false batchSize fuel 5000 true e = (Val tt, e') /\
      session e' = None /\
      staging_events (tables e') = [] /\
      mergeRows (ingested_events (tables e')) (buffer e')
      = mergeRows (ingested_events (tables e)) (buffer e ++ List.concat rowss)
      /\
      state e'
      = mkCursorState (lastCursor (cursor (state e)) pages)
          (eventsIngested (state e)
           + Z.of_nat (List.length (List.concat rowss))) /\
      trace e' = trace e ++ requestsFor false (cursor (state e)) pages /\
      http e' = [].
Proof.
  induction pages as [| p rest IH]; intros rowss e fuel Hl Ht Hh Hstop Hs Hst Hf;
    [contradiction |].
  inversion Ht as [| ? rows ? rowss' [Hd Hr] Ht']; subst.
  destruct fuel as [| fuel]; [cbn in Hf; lia |].
  cbn [map] in Hh.
  rewrite (standard_turn healthy h batchSize fuel 5000 p _ e Hh Hstop).
  set (e1 := setHttp _ _ e).
  pose proof (processPage_healthy h batchSize 5000 p rows e1 Hd Hr Hs Hst) as P.
  cbv zeta in P. unfold bind at 1.
  destruct (processPage healthy h batchSize 5000 p e1) as [rp e2].
  cbn [fst snd] in P.
  destruct P as (-> & P2 & P3 & P4 & _ & P6 & P7 & P8 & P9).
  unfold bind. rewrite goOn_unstopped by (rewrite P7; exact Hstop).
  assert (Hc2 : cursor (state e2) = Some (Fetcher.nextCursor p))
    by (rewrite P4; reflexivity).
  assert (Tr : trace e2 = trace e ++ [firstRequest false (cursor (state e))])
    by (rewrite P9; reflexivity).
  destruct rest as [| q rest].
  - cbn in Hl. rewrite Hl.
    destruct fuel as [| fuel]; [cbn in Hf; lia |].
    inversion Ht'; subst. cbn [standardLoop].
    unfold bind, goOn, ret. exists e2. cbn [List.concat].
    rewrite app_nil_r. repeat split; assumption.
  - destruct Hl as [Hm Hl]. rewrite Hm.
    assert (Hh2 : http e2 = map Fetcher.Resolved (q :: rest))
      by (rewrite P8; reflexivity).
    destruct (IH rowss' e2 fuel Hl Ht' Hh2)
      as (e' & I0 & I2 & I3 & I4 & I5 & I6 & I7);
      try assumption; [rewrite P7; exact Hstop | cbn in Hf |- *; lia |].
    exists e'. repeat split; try assumption.
    + rewrite I4. cbn [List.concat].
      rewrite mergeRows_app, P6, <- mergeRows_app, <- app_assoc. reflexivity.
    + rewrite I5, Hc2, P4. cbn [eventsIngested List.concat].
      rewrite (lastCursor_cons _ p). f_equal.
      change (state e1) with (state e).
      rewrite length_app, Nat2Z.inj_add. lia.
    + rewrite I6, Tr, Hc2, <- app_assoc. reflexivity.
Qed.

Lemma overlap_walk (rest : list Fetcher.FetchPageResult) :
  forall (p : Fetcher.FetchPageResult) (rows : list TransformedRow)
         (rowss : list (list TransformedRow)) (e : Env) (fuel : nat),
    lastOnly (p :: rest) ->
    transformInto h (p :: rest) (rows :: rowss) ->
    http e = map Fetcher.Resolved rest ->
    stopIn e = None ->
    session e = None ->
    staging_events (tables e) = [] ->
    (S (List.length rest) < fuel)%nat ->
    exists e',
      overlapLoop healthy h true batchSize fuel 40000 true
        (Fetcher.Returned p) e = (Val tt, e') /\
      session e' = None /\
      staging_events (tables e') = [] /\
      mergeRows (ingested_events (tables e')) (buffer e')
      = mergeRows (ingested_events (tables e))
          (buffer e ++ List.concat (rows :: rowss)) /\
      state e'
      = mkCursorState (lastCursor (cursor (state e)) (p :: rest))
          (eventsIngested (state e)
           + Z.of_nat (List.length (List.concat (rows :: rowss)))) /\
      trace e'
      = trace e ++ requestsFor true (Some (Fetcher.nextCursor p)) rest /\
      http e' = [].
Proof.
  induction rest as [| q rest IH];
    intros p rows rowss e fuel Hl Ht Hh Hstop Hs Hst Hf;
    inversion Ht as [| ? ? ? rowss' [Hd Hr] Ht']; subst.
  - cbn in Hl. inversion Ht'; subst.
    destruct fuel as [| [| fuel]]; [cbn in Hf; lia | cbn in Hf; lia |].
    rewrite (overlap_turn_last healthy h batchSize fuel 40000 p e Hl Hstop).
    pose proof (processPage_healthy h batchSize 40000 p rows e Hd Hr Hs Hst) as P.
    cbv zeta in P.
    destruct (processPage healthy h batchSize 40000 p e) as [rp e2].
    cbn [fst snd] in P.
    destruct P as (-> & P2 & P3 & P4 & _ & P6 & P7 & P8 & P9).
    exists e2. cbn [List.concat requestsFor]. rewrite !app_nil_r.
    repeat split; try assumption. rewrite P8. exact Hh.
  - destruct Hl as [Hm Hl].
    inversion Ht' as [| ? rows' ? rowss'' [Hd' Hr'] Ht'']; subst.
    destruct fuel as [| fuel]; [cbn in Hf; lia |].
    cbn [map] in Hh.
    rewrite (overlap_turn_more healthy h batchSize fuel 40000 p q _ e Hm Hh Hstop).
    set (e1 := setHttp _ _ e).
    pose proof (processPage_healthy h batchSize 40000 p rows e1 Hd Hr Hs Hst) as P.
    cbv zeta in P. unfold bind at 1.
    destruct (processPage healthy h batchSize 40000 p e1) as [rp e2].
    cbn [fst snd] in P.
    destruct P as (-> & P2 & P3 & P4 & _ & P6 & P7 & P8 & P9).
    assert (Hh2 : http e2 = map Fetcher.Resolved rest)
      by (rewrite P8; reflexivity).
    assert (Tr : trace e2
                 = trace e ++ [firstRequest true (Some (Fetcher.nextCursor p))])
      by (rewrite P9; reflexivity).
    destruct (IH q rows' rowss'' e2 fuel Hl Ht' Hh2)
      as (e' & I0 & I2 & I3 & I4 & I5 & I6 & I7);
      try assumption; [rewrite P7; exact Hstop | cbn in Hf |- *; lia |].
    exists e'. repeat split; try assumption.
    + rewrite I4.
      change (List.concat (rows :: rows' :: rowss''))
        with (rows ++ List.concat (rows' :: rowss'')).
      rewrite mergeRows_app, P6, <- mergeRows_app, <- app_assoc. reflexivity.
    + rewrite I5, P4. cbn [eventsIngested cursor].
      change (List.concat (rows :: rows' :: rowss''))
        with (rows ++ List.concat (rows' :: rowss'')).
      rewrite (lastCursor_cons (cursor (state e)) p). f_equal.
      change (state e1) with (state e).
      rewrite length_app, Nat2Z.inj_add. lia.
    + rewrite I6, Tr, <- app_assoc. reflexivity.
Qed.

End Working.

Lemma healthy_shutdown (e : Env) (c : string) :
  session e = None ->
  staging_events (tables e) = [] ->
  cursor (state e) = Some c ->
  exists e',
    (close healthy ;; saveCursor healthy) e = (Val tt, e') /\
    tables e'
    = mkTables [] (mergeRows (ingested_events (tables e)) (buffer e))
        (cursor_state (tables e)
         ++ [Store.mkCursorRow c (eventsIngested (state e))]) /\
    buffer e' = [] /\
    state e' = state e /\
    http e' = http e /\
    trace e' = trace e.
Proof.
  intros Hs Hst Hc. unfold close, bind at 1.
  pose proof (flush_healthy e Hs Hst) as F. cbv zeta in F.
  destruct (flush healthy e) as [rf e1]. cbn [fst snd] in F.
  destruct F as (-> & F2 & F3 & F4 & F5 & F6 & F7 & F8).
  rewrite (saveCursor_some e1 c) by (rewrite F5; exact Hc).
  eexists. split; [reflexivity |].
  cbn [tables buffer state http trace setTables tick].
  rewrite F4, F5. repeat split; assumption.
Qed.

Lemma latestCursor_insertCursor (c : string) (n : Z) (t : Tables) :
  latestCursor (insertCursor c n t) = Some (Store.mkCursorRow c n).
Proof.
  unfold latestCursor, insertCursor. cbn [cursor_state].
  rewrite map_app. cbn [map]. apply last_last.
Qed.

(** X25: a run over a source and a database that work, never asked to stop.
    The source answers page after page, each page with records that all
    transform, and only the last page says there is no more.  The run ends
    normally, having asked for each page with the cursor the page before it
    gave (the first with the checkpointed one) and read every answer; the
    destination is the old one merged with the rows of all pages in order,
    the staging table and the buffer are empty, the state holds the last
    page's cursor and the resumed count plus the number of rows, and the
    newest checkpoint row says the same.  This holds in both modes and for
    any batch size. *)
Theorem healthy_run_ingests_every_page :
  forall (h : string -> option Date) (isStreamMode : bool) (batchSize : Z)
         (t : Tables) (pages : list Fetcher.FetchPageResult)
         (rowss : list (list TransformedRow)),
    staging_events t = [] ->
    lastOnly pages ->
    transformInto h pages rowss ->
    let r := run healthy h isStreamMode batchSize
               (boot t None (map Fetcher.Resolved pages)) in
    let start := resumeState t in
    let total := eventsIngested start
                 + Z.of_nat (List.length (List.concat rowss)) in
    fst r = Val tt /\
    ingested_events (tables (snd r))
    = mergeRows (ingested_events t) (List.concat rowss) /\
    staging_events (tables (snd r)) = [] /\
    buffer (snd r) = [] /\
    state (snd r) = mkCursorState (lastCursor (cursor start) pages) total /\
    option_map fromRow (latestCursor (tables (snd r))) = Some (state (snd r)) /\
    trace (snd r) = requestsFor isStreamMode (cursor start) pages /\
    http (snd r) = [].
Proof.
  intros h mode bs t pages rowss Hst Hl Ht r start total.
  assert (W : exists e',
             tryCatch
               (if mode
                then bind (startFetch mode (limitOf mode) (cursor start))
                       (overlapLoop healthy h mode bs
                          (S (List.length (map Fetcher.Resolved pages)))
                          (limitOf mode) true)
                else standardLoop healthy h mode bs
                       (S (List.length (map Fetcher.Resolved pages)))
                       (limitOf mode) true)
               (fun err => close healthy ;; saveCursor healthy ;; throw err)
               (mkEnv t None 1 [] start None (map Fetcher.Resolved pages) [])
             = (Val tt, e') /\
             session e' = None /\
             staging_events (tables e') = [] /\
             mergeRows (ingested_events (tables e')) (buffer e')
             = mergeRows (ingested_events t) (List.concat rowss) /\
             state e' = mkCursorState (lastCursor (cursor start) pages) total /\
             trace e' = requestsFor mode (cursor start) pages /\
             http e' = []).
  { unfold tryCatch. rewrite length_map. destruct mode; cbn [limitOf].
    - destruct pages as [| p rest]; [contradiction |].
      inversion Ht as [| ? rows ? rowss' Hp Ht']; subst.
      unfold bind at 1.
      change (startFetch true 40000 (cursor start)
                (mkEnv t None 1 [] start None
                   (map Fetcher.Resolved (p :: rest)) []))
        with (Val (Fetcher.Returned p),
              mkEnv t None 1 [] start None (map Fetcher.Resolved rest)
                [firstRequest true (cursor start)]).
      destruct (overlap_walk h bs rest p rows rowss'
                  (mkEnv t None 1 [] start None (map Fetcher.Resolved rest)
                     [firstRequest true (cursor start)])
                  (S (List.length (p :: rest))) Hl Ht)
        as (e' & I0 & I2 & I3 & I4 & I5 & I6 & I7);
        try reflexivity; [exact Hst | cbn; lia |].
      rewrite I0. exists e'. repeat split; assumption.
    - destruct (standard_walk h bs pages rowss
                  (mkEnv t None 1 [] start None (map Fetcher.Resolved pages) [])
                  (S (List.length pages)) Hl Ht)
        as (e' & I0 & I2 & I3 & I4 & I5 & I6 & I7);
        try reflexivity; [exact Hst | lia |].
      rewrite I0. exists e'. repeat split; assumption. }
  destruct W as (e' & W0 & W2 & W3 & W4 & W5 & W6 & W7).
  assert (Hne : pages <> []) by (destruct pages; [contradiction | discriminate]).
  destruct (lastCursor_some pages (cursor start) Hne) as [c Hc].
  destruct (healthy_shutdown e' c W2 W3) as (e2 & S0 & S1 & S2 & S3 & S4 & S5);
    [rewrite W5; exact Hc |].
  assert (R : r = (Val tt, e2)).
  { subst r. rewrite run_after_load by reflexivity. cbv zeta.
    fold start. unfold bind at 1. rewrite W0. exact S0. }
  rewrite R. cbn [fst snd]. rewrite S1, S2, S3, S4, S5, W5.
  cbn [ingested_events staging_events].
  repeat split; try assumption.
  cbn [eventsIngested].
  change (mkTables [] ?ing (?cs ++ [Store.mkCursorRow c total]))
    with (insertCursor c total (mkTables [] ing cs)).
  rewrite latestCursor_insertCursor, Hc. reflexivity.
Qed.

Lemma healthy_run_ingests_every_page_witness :
  let r := run healthy noHostParse true 2
             (boot emptyDb None
                (map Fetcher.Resolved [Samples.firstPage; threeRecords])) in
  fst r = Val tt /\
  ids (ingested_events (tables (snd r))) = ["0"; "1"; "2"; "3"] /\
  state (snd r) = mkCursorState (Some "cur-final") 5 /\
  List.length (trace (snd r)) = 2%nat.
Proof.
  assert (T : transformInto noHostParse [Samples.firstPage; threeRecords]
                [Samples.rowsOf Samples.firstPage;
                 Samples.rowsOf threeRecords]).
  { constructor; [split; [discriminate | reflexivity] |].
    constructor; [split; [discriminate | reflexivity] | constructor]. }
  destruct (healthy_run_ingests_every_page noHostParse true 2 emptyDb
              [Samples.firstPage; threeRecords]
              [Samples.rowsOf Samples.firstPage; Samples.rowsOf threeRecords]
              eq_refl (conj eq_refl eq_refl) T)
    as (H1 & H2 & _ & _ & H5 & _ & H7 & _).
  split; [exact H1 |]. split; [rewrite H2; reflexivity |].
  split; [rewrite H5; reflexivity | rewrite H7; reflexivity].
Defined.

End RunSpec.
